(** * Server monitor and read preference of the MongoDB Node.js driver

    A shallow embedding of
    - [lib/read_preference.js]: the [ReadPreference] constructor, its
      validation, [isValid], [equals], [slaveOk];
    - [lib/core/sdam/monitor.js]: the [Monitor] class ([connect],
      [requestCheck], [reset], [close]) and the functions [checkServer],
      [monitorServer], [rescheduleMonitoring] that drive one heartbeat
      round and schedule the next one.

    JavaScript values are an inductive type with the language's own
    tests ([typeof], [Array.isArray], truthiness) written out.  The
    monitor is a record; the event loop around it (armed timers,
    outstanding callbacks of [connect] and [Connection.command], the
    clock, the server description kept by the topology) is an explicit
    world that every function threads through, together with a log of
    the effects performed. *)

From Stdlib Require Import ZArith List String Bool Lia.
Import ListNotations.
Local Open Scope string_scope.
Local Open Scope list_scope.
Local Open Scope Z_scope.
Set Warnings "-register-all".
#[local] Arguments String.eqb : simpl never.

(* ================================================================== *)
(** * JavaScript values *)
(* ================================================================== *)

Module JS.

(** A number is an integer or [NaN]: fractions and the infinities are
    left out, no code path modelled here tells them from integers of the
    same sign. *)
Inductive JsNum : Type :=
| NaN
| Fin (z : Z).

Inductive JsVal : Type :=
| JUndefined
| JNull
| JBool (b : bool)
| JNum (n : JsNum)
| JStr (s : string)
| JArr (elems : list JsVal)
| JObj (props : list (string * JsVal)).

(** [typeof v === 'object'] : true of [null], arrays and objects. *)
Definition typeof_object (v : JsVal) : bool :=
  match v with
  | JNull | JArr _ | JObj _ => true
  | _ => false
  end.

(** [Array.isArray(v)] *)
Definition isArray (v : JsVal) : bool :=
  match v with
  | JArr _ => true
  | _ => false
  end.

(** ToBoolean: [undefined], [null], [false], [0], [NaN] and the empty
    string are falsy, everything else is truthy. *)
Definition truthy (v : JsVal) : bool :=
  match v with
  | JUndefined | JNull => false
  | JBool b => b
  | JNum NaN => false
  | JNum (Fin z) => negb (z =? 0)
  | JStr s => negb (String.eqb s "")
  | JArr _ | JObj _ => true
  end.

(** [v == null] : [null] or [undefined]. *)
Definition nullish (v : JsVal) : bool :=
  match v with
  | JUndefined | JNull => true
  | _ => false
  end.

(** [v === undefined] *)
Definition is_undefined (v : JsVal) : bool :=
  match v with
  | JUndefined => true
  | _ => false
  end.

Fixpoint lookup (k : string) (props : list (string * JsVal)) : JsVal :=
  match props with
  | [] => JUndefined
  | (k', v) :: rest => if String.eqb k k' then v else lookup k rest
  end.

(** Property read [v.k] for the option names the constructor reads.
    Only called on truthy receivers; primitives and arrays have no own
    property of these names. *)
Definition get (v : JsVal) (k : string) : JsVal :=
  match v with
  | JObj props => lookup k props
  | _ => JUndefined
  end.

(** [a && b] and [a || b] return one of their operands. *)
Definition js_and (a b : JsVal) : JsVal := if truthy a then b else a.
Definition js_or (a b : JsVal) : JsVal := if truthy a then a else b.

(** Strict equality [a === b] where one side is a string or [null], the
    only way the modelled code uses it (entries of [VALID_MODES], the
    constant [PRIMARY], the [mode] of an instance).  Arrays and objects
    are compared by identity in JavaScript and never equal a string or
    [null]. *)
Definition strict_eq (a b : JsVal) : bool :=
  match a, b with
  | JUndefined, JUndefined => true
  | JNull, JNull => true
  | JBool x, JBool y => Bool.eqb x y
  | JNum (Fin x), JNum (Fin y) => x =? y
  | JStr x, JStr y => String.eqb x y
  | _, _ => false
  end.

(** [Array.prototype.indexOf(x) !== -1] *)
Definition includes (l : list JsVal) (x : JsVal) : bool :=
  existsb (fun y => strict_eq y x) l.

Section Coercion.

(** ECMAScript's ToNumber on strings, arrays and objects
    (StringToNumber, ToPrimitive) belongs to the language runtime, not
    to the driver: it is a parameter. *)
Variable ToNumber_ext : JsVal -> JsNum.

Definition ToNumber (v : JsVal) : JsNum :=
  match v with
  | JUndefined => NaN
  | JNull => Fin 0
  | JBool b => Fin (if b then 1 else 0)
  | JNum n => n
  | JStr _ | JArr _ | JObj _ => ToNumber_ext v
  end.

(** [v <= 0] : false as soon as the left side converts to [NaN]. *)
Definition le_zero (v : JsVal) : bool :=
  match ToNumber v with
  | NaN => false
  | Fin z => z <=? 0
  end.

End Coercion.

End JS.

(* ================================================================== *)
(** * lib/read_preference.js *)
(* ================================================================== *)

Module RP.
Import JS.

Definition PRIMARY := "primary".
Definition PRIMARY_PREFERRED := "primaryPreferred".
Definition SECONDARY := "secondary".
Definition SECONDARY_PREFERRED := "secondaryPreferred".
Definition NEAREST := "nearest".

Definition VALID_MODES : list JsVal :=
  [JStr PRIMARY; JStr PRIMARY_PREFERRED; JStr SECONDARY;
   JStr SECONDARY_PREFERRED; JStr NEAREST; JNull].

(** [ReadPreference.isValid] *)
Definition isValid (mode : JsVal) : bool := includes VALID_MODES mode.

(** The [TypeError]s of the constructor, by the line that throws them:
    - [InvalidMode m]      "Invalid read preference mode m"
    - [TagsNotArray]       "ReadPreference tags must be an array"
    - [StalenessNotPositive] "maxStalenessSeconds must be a positive integer"
    - [PrimaryWithTags]    "Primary read preference cannot be combined with tags"
    - [PrimaryWithStaleness] "... cannot be combined with maxStalenessSeconds"
    - [PrimaryWithHedge]   "... cannot be combined with hedge" *)
Inductive TypeError : Type :=
| InvalidMode (mode : JsVal)
| TagsNotArray
| StalenessNotPositive
| PrimaryWithTags
| PrimaryWithStaleness
| PrimaryWithHedge.

(** The fields the constructor assigns on [this]; a field that was never
    assigned reads as [undefined]. *)
Record Instance : Type := mkInstance {
  mode : JsVal;
  tags : JsVal;
  hedge : JsVal;
  maxStalenessSeconds : JsVal;
  minWireVersion : JsVal
}.

Inductive Outcome : Type :=
| Returns (rp : Instance)
| Throws (e : TypeError).

(** Lines 21-26: a non-array object in second place with no third
    argument is the options object; any other truthy non-array [tags]
    is refused. *)
Definition shuffle_args (tags options : JsVal) : (JsVal * JsVal) + TypeError :=
  if is_undefined options && typeof_object tags && negb (isArray tags)
  then inl (JUndefined, tags)
  else if truthy tags && negb (isArray tags)
  then inr TagsNotArray
  else inl (tags, options).

(** [this.tags && Array.isArray(this.tags) && this.tags.length > 0] *)
Definition nonempty_array (v : JsVal) : bool :=
  match v with
  | JArr (_ :: _) => true
  | _ => false
  end.

Section Constructor.

Variable ToNumber_ext : JsVal -> JsNum.

(** Lines 45-57, the checks of mode [primary]. *)
Definition check_primary (this : Instance) : Outcome :=
  if strict_eq (mode this) (JStr PRIMARY) then
    if nonempty_array (tags this) then Throws PrimaryWithTags
    else if truthy (maxStalenessSeconds this) then Throws PrimaryWithStaleness
    else if truthy (hedge this) then Throws PrimaryWithHedge
    else Returns this
  else Returns this.

(** [new ReadPreference(mode, tags, options)]; an argument that is not
    passed is [JUndefined]. *)
Definition ReadPreference (mode tags options : JsVal) : Outcome :=
  if negb (isValid mode) then Throws (InvalidMode mode)
  else
    match shuffle_args tags options with
    | inr e => Throws e
    | inl (tags, options) =>
        let this_hedge := js_and options (get options "hedge") in
        let options := js_or options (JObj []) in
        let staleness := get options "maxStalenessSeconds" in
        if negb (nullish staleness) then
          if le_zero ToNumber_ext staleness then Throws StalenessNotPositive
          else check_primary
                 (mkInstance mode tags this_hedge staleness (JNum (Fin 5)))
        else check_primary
               (mkInstance mode tags this_hedge JUndefined JUndefined)
    end.

End Constructor.

(** [ReadPreference.prototype.equals] *)
Definition equals (this readPreference : Instance) : bool :=
  strict_eq (mode readPreference) (mode this).

Definition needSlaveOk : list JsVal :=
  [JStr "primaryPreferred"; JStr "secondary"; JStr "secondaryPreferred";
   JStr "nearest"].

(** [ReadPreference.prototype.slaveOk] *)
Definition slaveOk (this : Instance) : bool := includes needSlaveOk (mode this).

Definition throws (o : Outcome) : bool :=
  match o with
  | Throws _ => true
  | Returns _ => false
  end.

(** The failure condition as the specification words it, to be compared
    with the constructor: the mode is not one of the five names; or mode
    [primary] comes with a non-empty tag array, with [maxStalenessSeconds]
    or with [hedge]; or [maxStalenessSeconds] is present and [<= 0].
    "Present" is read as "not [null] or [undefined]"; tags and options
    are taken as passed. *)
Definition five_modes : list JsVal :=
  [JStr PRIMARY; JStr PRIMARY_PREFERRED; JStr SECONDARY;
   JStr SECONDARY_PREFERRED; JStr NEAREST].

Definition spec_throws (ToNumber_ext : JsVal -> JsNum)
    (mode tags options : JsVal) : bool :=
  negb (includes five_modes mode)
  || (strict_eq mode (JStr PRIMARY)
      && (nonempty_array tags
          || negb (nullish (get options "maxStalenessSeconds"))
          || negb (nullish (get options "hedge"))))
  || (negb (nullish (get options "maxStalenessSeconds"))
      && le_zero ToNumber_ext (get options "maxStalenessSeconds")).

(** The failure condition of the constructor read off its branches: the
    second argument counts as the options when it is a non-array object
    ([typeof] says so of [null] too) and there is no third argument. *)
Definition second_is_options (tags options : JsVal) : bool :=
  is_undefined options && typeof_object tags && negb (isArray tags).

Definition given_tags (tags options : JsVal) : JsVal :=
  if second_is_options tags options then JUndefined else tags.

Definition given_options (tags options : JsVal) : JsVal :=
  if second_is_options tags options then tags else options.

Definition amended_throws (ToNumber_ext : JsVal -> JsNum)
    (mode tags options : JsVal) : bool :=
  let tags' := given_tags tags options in
  let options' := given_options tags options in
  let staleness := get options' "maxStalenessSeconds" in
  negb (includes five_modes mode || strict_eq JNull mode)
  || (truthy tags' && negb (isArray tags'))
  || (negb (nullish staleness) && le_zero ToNumber_ext staleness)
  || (strict_eq mode (JStr PRIMARY)
      && (nonempty_array tags'
          || truthy staleness
          || truthy (get options' "hedge"))).

(** ** The rest of the module *)

Definition is_string (v : JsVal) : bool :=
  match v with
  | JStr _ => true
  | _ => false
  end.

(** [ReadPreference.prototype.isValid] (lines 133-135): the argument
    when it is a string, the instance's own mode otherwise. *)
Definition proto_isValid (this : Instance) (mode' : JsVal) : bool :=
  isValid (if is_string mode' then mode' else mode this).

(** The getter [preference] (lines 61-66). *)
Definition preference (this : Instance) : JsVal := mode this.

(** [ReadPreference.prototype.toJSON] (lines 167-173): the properties in
    the order they are assigned. *)
Definition toJSON (this : Instance) : JsVal :=
  JObj ([("mode", mode this)]
        ++ (if isArray (tags this) then [("tags", tags this)] else [])
        ++ (if truthy (maxStalenessSeconds this)
            then [("maxStalenessSeconds", maxStalenessSeconds this)] else [])
        ++ (if truthy (hedge this) then [("hedge", hedge this)] else [])).

(** What [options.readPreference] holds: an instance of [ReadPreference]
    or any other value. *)
Inductive Preference : Type :=
| Value (v : JsVal)
| Object (rp : Instance).

(** What [fromOptions] does: it returns [null], returns the outcome of a
    [new ReadPreference(...)], or returns [options.readPreference] itself. *)
Inductive FromOptions : Type :=
| ReturnsNull
| Constructs (o : Outcome)
| ReturnsSame (p : Preference).

(** [ReadPreference.fromOptions(options)] (lines 92-113), given the three
    properties it reads: [options.readPreference],
    [options.readPreferenceTags] and [options.hedge]. *)
Definition fromOptions (ToNumber_ext : JsVal -> JsNum)
    (readPreference : Preference) (readPreferenceTags hedge' : JsVal)
  : FromOptions :=
  match readPreference with
  | Object rp => ReturnsSame (Object rp)
  | Value v =>
      if nullish v then ReturnsNull
      else if is_string v
      then Constructs (ReadPreference ToNumber_ext v readPreferenceTags JUndefined)
      else if typeof_object v
      then
        let mode := js_or (get v "mode") (get v "preference") in
        if truthy mode && is_string mode
        then Constructs
               (ReadPreference ToNumber_ext mode (get v "tags")
                  (JObj [("maxStalenessSeconds", get v "maxStalenessSeconds");
                         ("hedge", hedge')]))
        else ReturnsSame (Value v)
      else ReturnsSame (Value v)
  end.

(** ** Values to construct with *)

Definition east : JsVal := JArr [JObj [("dc", JStr "east")]].

Definition hedged : JsVal := JObj [("enabled", JBool true)].

(** [{ maxStalenessSeconds: 90, hedge: { enabled: true } }] *)
Definition stale90 : JsVal :=
  JObj [("maxStalenessSeconds", JNum (Fin 90)); ("hedge", hedged)].

(** [new ReadPreference('secondary', [{dc: 'east'}], stale90)] *)
Definition secondary_east : Instance :=
  mkInstance (JStr "secondary") east hedged (JNum (Fin 90)) (JNum (Fin 5)).

Definition only (m : string) : Instance :=
  mkInstance (JStr m) JUndefined JUndefined JUndefined JUndefined.

(** ToNumber of strings and objects, when a run needs one: none of the
    values above is converted. *)
Definition no_coercion : JsVal -> JsNum := fun _ => NaN.

(** What the constructor has checked of an instance it returns. *)
Definition well_formed (ToNumber_ext : JsVal -> JsNum) (rp : Instance) : Prop :=
  isValid (mode rp) = true
  /\ (truthy (tags rp) = true -> isArray (tags rp) = true)
  /\ ((maxStalenessSeconds rp = JUndefined /\ minWireVersion rp = JUndefined)
      \/ (nullish (maxStalenessSeconds rp) = false
          /\ le_zero ToNumber_ext (maxStalenessSeconds rp) = false
          /\ minWireVersion rp = JNum (Fin 5)))
  /\ (mode rp = JStr PRIMARY ->
      nonempty_array (tags rp) = false
      /\ truthy (maxStalenessSeconds rp) = false
      /\ truthy (hedge rp) = false).

End RP.

(* ================================================================== *)
(** * lib/core/sdam/monitor.js *)
(* ================================================================== *)

Module Mon.

(** ** States and the transition table (lines 24-35) *)

Inductive State : Type :=
| STATE_CLOSED
| STATE_CLOSING
| STATE_IDLE
| STATE_MONITORING.

Definition state_eqb (a b : State) : bool :=
  match a, b with
  | STATE_CLOSED, STATE_CLOSED
  | STATE_CLOSING, STATE_CLOSING
  | STATE_IDLE, STATE_IDLE
  | STATE_MONITORING, STATE_MONITORING => true
  | _, _ => false
  end.

Definition stateTable (from : State) : list State :=
  match from with
  | STATE_CLOSING => [STATE_CLOSING; STATE_IDLE; STATE_CLOSED]
  | STATE_CLOSED => [STATE_CLOSED; STATE_MONITORING]
  | STATE_IDLE => [STATE_IDLE; STATE_MONITORING; STATE_CLOSING]
  | STATE_MONITORING => [STATE_MONITORING; STATE_IDLE; STATE_CLOSING]
  end.

Definition legal (from to : State) : bool :=
  existsb (state_eqb to) (stateTable from).

Definition INVALID_REQUEST_CHECK_STATES : list State :=
  [STATE_CLOSING; STATE_CLOSED; STATE_MONITORING].

Definition has (l : list State) (s : State) : bool := existsb (state_eqb s) l.

(** ** Data *)

(** Times and durations are whole milliseconds. *)
Record Options : Type := mkOptions {
  connectTimeoutMS : Z;
  heartbeatFrequencyMS : Z;
  minHeartbeatFrequencyMS : Z
}.

(** Lines 50-61: [typeof x === 'number' ? x : default]; an option that
    is not a number is [None]. *)
Definition makeOptions
    (connectionTimeout connectTimeoutMS' heartbeatFrequencyMS'
     minHeartbeatFrequencyMS' : option Z) : Options :=
  {| connectTimeoutMS :=
       match connectionTimeout with
       | Some t => t
       | None => match connectTimeoutMS' with Some t => t | None => 10000 end
       end;
     heartbeatFrequencyMS :=
       match heartbeatFrequencyMS' with Some t => t | None => 10000 end;
     minHeartbeatFrequencyMS :=
       match minHeartbeatFrequencyMS' with Some t => t | None => 500 end |}.

Record TopologyVersion : Type := mkTopologyVersion {
  processId : nat;
  counter : Z
}.

(** Modelled from the spec: the bounds of a 64-bit integer, which is
    what the counter of a topology version is. *)
Definition Long_MIN : Z := -9223372036854775808.
Definition Long_MAX : Z := 9223372036854775807.

(** Modelled from the spec: [BSON.Long.fromNumber] belongs to the bson
    library, which is not among the sources; a [Long] is a 64-bit
    integer, and a number outside its range is pinned to the nearest
    bound. *)
Definition Long_fromNumber (z : Z) : Z :=
  if z <=? Long_MIN then Long_MIN
  else if Long_MAX <=? z then Long_MAX
  else z.

(** [makeTopologyVersion] (lines 289-294): the same process id, the
    counter as a 64-bit [Long]. *)
Definition makeTopologyVersion (tv : TopologyVersion) : TopologyVersion :=
  {| processId := processId tv; counter := Long_fromNumber (counter tv) |}.

(** Modelled from the spec: [ServerType] of [./common] is not among the
    sources; the monitor only tells [Unknown] from the rest, the other
    roles are the ones the specification names. *)
Inductive ServerType : Type :=
| Unknown
| RSPrimary
| RSSecondary.

Definition is_unknown (t : ServerType) : bool :=
  match t with
  | Unknown => true
  | _ => false
  end.

(** [monitor[kServer].description], owned by the topology. *)
Record ServerDescription : Type := mkDescription {
  sd_type : ServerType;
  sd_topologyVersion : option TopologyVersion
}.

(** The reply to [ismaster]; only its topology version is read. *)
Record IsMaster : Type := mkIsMaster {
  im_topologyVersion : option TopologyVersion
}.

Inductive Error : Type :=
| MongoNetworkError (message : string)
| MongoError (message : string).

(** [err instanceof MongoNetworkError] *)
Definition is_network (e : Error) : bool :=
  match e with
  | MongoNetworkError _ => true
  | MongoError _ => false
  end.

Definition Connection := nat.

(** The command document and the options of [Connection.command]
    (lines 186-192); [exhaustAllowed] left out of the literal is [false]. *)
Record Command : Type := mkCommand {
  ismaster : bool;
  maxAwaitTimeMS : option Z;
  cmd_topologyVersion : option TopologyVersion
}.

Record CommandOptions : Type := mkCommandOptions {
  socketTimeout : Z;
  exhaustAllowed : bool
}.

Inductive Event : Type :=
| serverHeartbeatStarted (address : string)
| serverHeartbeatSucceeded (duration : Z) (reply : IsMaster) (address : string)
| serverHeartbeatFailed (duration : Z) (failure : Error) (address : string)
| resetServer (failure : Error)
| resetConnectionPool
| close_event
| monitoring.

(** The two timer callbacks: the one [reset] arms (line 134) and the one
    [rescheduleMonitoring] arms (lines 283-286). *)
Inductive TimerCallback : Type :=
| CallRequestCheck
| ClearIdThenRequestCheck.

(** What the monitor does to the outside, in order. *)
Inductive Effect : Type :=
| Emit (e : Event)
| Cancel
| ClearTimeout (id : nat)
| SetTimeout (id : nat) (cb : TimerCallback) (ms : option Z)
| Destroy (c : Connection) (force : bool)
| Connect
| RunCommand (c : Connection) (cmd : Command) (opts : CommandOptions)
| NextTick (e : Event).

Record Timer : Type := mkTimer {
  t_id : nat;
  t_cb : TimerCallback;
  t_ms : option Z;
  t_at : Z
}.

(** A round whose callback has not been called yet: the closure of
    [connect] (lines 220-244) or of [Connection.command] (lines 194-214)
    with the variables it captured. *)
Inductive Pending : Type :=
| PConnect (start : Z)
| PCommand (start : Z) (isAwaitable : bool).

Record Monitor : Type := mkMonitor {
  s_state : State;
  kConnection : option Connection;
  kMonitorId : option nat;
  kLastCheckTime : option Z;
  address : string;
  options : Options
}.

(** The monitor in its event loop. *)
Record World : Type := mkWorld {
  monitor : Monitor;
  server : ServerDescription;
  now : Z;
  timers : list Timer;
  next_timer : nat;
  inflight : list Pending;
  ticks : list Event;
  log : list Effect
}.

(** ** Field updates *)

Definition with_monitor (f : Monitor -> Monitor) (w : World) : World :=
  mkWorld (f (monitor w)) (server w) (now w) (timers w) (next_timer w)
          (inflight w) (ticks w) (log w).

Definition set_state (s : State) (m : Monitor) : Monitor :=
  mkMonitor s (kConnection m) (kMonitorId m) (kLastCheckTime m)
            (address m) (options m).

Definition set_connection (c : option Connection) (m : Monitor) : Monitor :=
  mkMonitor (s_state m) c (kMonitorId m) (kLastCheckTime m)
            (address m) (options m).

Definition set_monitorId (i : option nat) (m : Monitor) : Monitor :=
  mkMonitor (s_state m) (kConnection m) i (kLastCheckTime m)
            (address m) (options m).

Definition set_lastCheckTime (t : option Z) (m : Monitor) : Monitor :=
  mkMonitor (s_state m) (kConnection m) (kMonitorId m) t
            (address m) (options m).

Definition with_timers (f : list Timer -> list Timer) (w : World) : World :=
  mkWorld (monitor w) (server w) (now w) (f (timers w)) (next_timer w)
          (inflight w) (ticks w) (log w).

Definition with_inflight (f : list Pending -> list Pending) (w : World) : World :=
  mkWorld (monitor w) (server w) (now w) (timers w) (next_timer w)
          (f (inflight w)) (ticks w) (log w).

Definition with_ticks (f : list Event -> list Event) (w : World) : World :=
  mkWorld (monitor w) (server w) (now w) (timers w) (next_timer w)
          (inflight w) (f (ticks w)) (log w).

Definition do (e : Effect) (w : World) : World :=
  mkWorld (monitor w) (server w) (now w) (timers w) (next_timer w)
          (inflight w) (ticks w) (log w ++ [e]).

Definition emit (e : Event) (w : World) : World := do (Emit e) w.

(** ** Timers, clock, state machine *)

Definition id_is (id : nat) (t : Timer) : bool := Nat.eqb (t_id t) id.

(** [clearTimeout(h)]: nothing for [undefined] or for a handle that has
    fired or was cleared before. *)
Definition clearTimeout (h : option nat) (w : World) : World :=
  match h with
  | None => w
  | Some id =>
      do (ClearTimeout id)
         (with_timers (filter (fun t => negb (id_is id t))) w)
  end.

(** [setTimeout(cb, ms)]: a fresh handle; [ms] is [None] when the
    argument is [undefined]. *)
Definition setTimeout (cb : TimerCallback) (ms : option Z) (w : World)
  : nat * World :=
  let id := next_timer w in
  (id,
   do (SetTimeout id cb ms)
      (mkWorld (monitor w) (server w) (now w)
               (timers w ++ [mkTimer id cb ms (now w)]) (S id)
               (inflight w) (ticks w) (log w))).

(** Modelled from the spec: [calculateDurationInMs] of [../utils] is not
    among the sources; it is the time elapsed since the stamp, and since
    the origin of the clock when there is no stamp yet. *)
Definition calculateDurationInMs (w : World) (started : option Z) : Z :=
  match started with
  | Some t => now w - t
  | None => now w
  end.

(** Modelled from the spec: [makeStateMachine] of [../utils] is not among
    the sources; a transition outside the table is rejected and leaves
    the state as it is. *)
Definition stateTransition (newState : State) (w : World) : World :=
  if legal (s_state (monitor w)) newState
  then with_monitor (set_state newState) w
  else w.

(** ** rescheduleMonitoring (lines 272-287) *)

Definition rescheduleMonitoring (ms : option Z) (w : World) : World :=
  match s_state (monitor w) with
  | STATE_CLOSING | STATE_CLOSED => w
  | _ =>
      let w := stateTransition STATE_IDLE w in
      let w := clearTimeout (kMonitorId (monitor w)) w in
      let w := with_monitor (set_lastCheckTime (Some (now w))) w in
      let '(id, w) := setTimeout ClearIdThenRequestCheck ms w in
      with_monitor (set_monitorId (Some id)) w
  end.

(** ** checkServer (lines 157-245) *)

(** The callback [monitorServer] hands to [checkServer] (lines 254-269);
    [err] and [isMaster] are [None] when [undefined]. *)
Definition monitorServer_callback (err : option Error)
    (isMaster : option IsMaster) (w : World) : World :=
  let heartbeatFrequencyMS := heartbeatFrequencyMS (options (monitor w)) in
  let known :=
    match err with
    | Some _ => negb (is_unknown (sd_type (server w)))
    | None => false
    end in
  if known then rescheduleMonitoring None w
  else
    match isMaster with
    | Some (mkIsMaster (Some _)) => rescheduleMonitoring None w
    | _ => rescheduleMonitoring (Some heartbeatFrequencyMS) w
    end.

(** [failureHandler] (lines 161-178); [start] is the variable of the
    enclosing [checkServer]. *)
Definition failureHandler (start : Z) (err : Error) (w : World) : World :=
  let w :=
    match kConnection (monitor w) with
    | Some c => with_monitor (set_connection None) (do (Destroy c true) w)
    | None => w
    end in
  let w := emit (serverHeartbeatFailed (calculateDurationInMs w (Some start))
                                       err (address (monitor w))) w in
  let w := emit (resetServer err) w in
  let w := if is_network err then emit resetConnectionPool w else w in
  monitorServer_callback (Some err) None w.

(** The command of a round on an existing connection (lines 181-192). *)
Definition round_command (o : Options) (tv : option TopologyVersion)
  : Command * CommandOptions :=
  let connectTimeoutMS := connectTimeoutMS o in
  let maxAwaitTimeMS := heartbeatFrequencyMS o in
  match tv with
  | Some topologyVersion =>
      (mkCommand true (Some maxAwaitTimeMS)
                 (Some (makeTopologyVersion topologyVersion)),
       mkCommandOptions (connectTimeoutMS + maxAwaitTimeMS) true)
  | None =>
      (mkCommand true None None, mkCommandOptions connectTimeoutMS false)
  end.

Definition is_some {A} (o : option A) : bool :=
  match o with
  | Some _ => true
  | None => false
  end.

(** [checkServer] up to the point where it hands its callback to
    [Connection.command] or to [connect] and returns. *)
Definition checkServer (w : World) : World :=
  let start := now w in
  let w := emit (serverHeartbeatStarted (address (monitor w))) w in
  match kConnection (monitor w) with
  | Some c =>
      let topologyVersion := sd_topologyVersion (server w) in
      let isAwaitable := is_some topologyVersion in
      let '(cmd, opts) := round_command (options (monitor w)) topologyVersion in
      with_inflight (fun l => l ++ [PCommand start isAwaitable])
                    (do (RunCommand c cmd opts) w)
  | None =>
      with_inflight (fun l => l ++ [PConnect start]) (do Connect w)
  end.

(** The callback given to [Connection.command] (lines 194-214).  The
    second component is the closure when it stays registered: a streamed
    reply restarts the timing and waits for the next one. *)
Definition command_callback (start : Z) (isAwaitable : bool)
    (r : Error + IsMaster) (w : World) : World * option Pending :=
  match r with
  | inl err => (failureHandler start err w, None)
  | inr isMaster =>
      let w := emit (serverHeartbeatSucceeded
                       (calculateDurationInMs w (Some start)) isMaster
                       (address (monitor w))) w in
      if isAwaitable
      then (emit (serverHeartbeatStarted (address (monitor w))) w,
            Some (PCommand (now w) true))
      else (monitorServer_callback None (Some isMaster) w, None)
  end.

(** The callback given to [connect] (lines 220-244). *)
Definition connect_callback (start : Z)
    (r : Error + (Connection * IsMaster)) (w : World) : World :=
  match r with
  | inl err =>
      let w := with_monitor (set_connection None) w in
      let w := if negb (is_network err) then emit resetConnectionPool w
               else w in
      failureHandler start err w
  | inr (conn, reply) =>
      let w := with_monitor (set_connection (Some conn)) w in
      let w := emit (serverHeartbeatSucceeded
                       (calculateDurationInMs w (Some start)) reply
                       (address (monitor w))) w in
      monitorServer_callback None (Some reply) w
  end.

(** ** monitorServer (lines 247-270) *)

Definition monitorServer (w : World) : World :=
  let w := stateTransition STATE_MONITORING w in
  let w := with_ticks (fun q => q ++ [monitoring]) (do (NextTick monitoring) w) in
  checkServer w.

(** ** The public operations of [Monitor] (lines 90-154) *)

Definition connect (w : World) : World :=
  match s_state (monitor w) with
  | STATE_CLOSED => monitorServer w
  | _ => w
  end.

(** Line 105. *)
Definition remainingTime (w : World) : Z :=
  heartbeatFrequencyMS (options (monitor w))
  - calculateDurationInMs w (kLastCheckTime (monitor w)).

Definition requestCheck (w : World) : World :=
  if has INVALID_REQUEST_CHECK_STATES (s_state (monitor w)) then w
  else
    let minHeartbeatFrequencyMS :=
      minHeartbeatFrequencyMS (options (monitor w)) in
    if (remainingTime w >? minHeartbeatFrequencyMS)
       && is_some (kMonitorId (monitor w))
    then
      rescheduleMonitoring (Some minHeartbeatFrequencyMS)
                           (clearTimeout (kMonitorId (monitor w)) w)
    else monitorServer (clearTimeout (kMonitorId (monitor w)) w).

(** The part [reset] and [close] share (lines 121-129, 142-150). *)
Definition teardown (w : World) : World :=
  let w := stateTransition STATE_CLOSING w in
  let w := do Cancel w in
  let w := clearTimeout (kMonitorId (monitor w)) w in
  match kConnection (monitor w) with
  | Some c => do (Destroy c true) w
  | None => w
  end.

Definition reset (w : World) : World :=
  match s_state (monitor w) with
  | STATE_CLOSED | STATE_CLOSING => w
  | _ =>
      let w := teardown w in
      let w := stateTransition STATE_IDLE w in
      let heartbeatFrequencyMS := heartbeatFrequencyMS (options (monitor w)) in
      let '(id, w) := setTimeout CallRequestCheck (Some heartbeatFrequencyMS) w in
      with_monitor (set_monitorId (Some id)) w
  end.

Definition close (w : World) : World :=
  match s_state (monitor w) with
  | STATE_CLOSED | STATE_CLOSING => w
  | _ =>
      let w := teardown w in
      let w := emit close_event w in
      stateTransition STATE_CLOSED w
  end.

(** ** The event loop *)

Definition run_timer (cb : TimerCallback) (w : World) : World :=
  match cb with
  | CallRequestCheck => requestCheck w
  | ClearIdThenRequestCheck =>
      requestCheck (with_monitor (set_monitorId None) w)
  end.

(** A timer may fire once its delay has elapsed; without a delay
    argument it may fire at once. *)
Definition due (w : World) (t : Timer) : bool :=
  match t_ms t with
  | Some ms => t_at t + ms <=? now w
  | None => true
  end.

Fixpoint remove_nth {A} (i : nat) (l : list A) : list A :=
  match l, i with
  | [], _ => []
  | _ :: l, O => l
  | x :: l, S i => x :: remove_nth i l
  end.

Inductive Action : Type :=
| Aconnect
| ArequestCheck
| Areset
| Aclose
| Atimer (id : nat)
| AconnectDone (i : nat) (r : Error + (Connection * IsMaster))
| AcommandDone (i : nat) (r : Error + IsMaster)
| Atick
| Aadvance (d : Z)
| Adescription (sd : ServerDescription).

(** One step of the monitor in its environment: a call of a public
    method, or the event loop running a timer, completing the [i]-th
    outstanding round, running the next tick, letting time pass, or the
    topology replacing the server description.  A step that is not enabled
    changes nothing. *)
Definition step (a : Action) (w : World) : World :=
  match a with
  | Aconnect => connect w
  | ArequestCheck => requestCheck w
  | Areset => reset w
  | Aclose => close w
  | Atimer id =>
      match find (id_is id) (timers w) with
      | Some t =>
          if due w t
          then run_timer (t_cb t)
                 (with_timers (filter (fun t => negb (id_is id t))) w)
          else w
      | None => w
      end
  | AconnectDone i r =>
      match nth_error (inflight w) i with
      | Some (PConnect start) =>
          connect_callback start r (with_inflight (remove_nth i) w)
      | _ => w
      end
  | AcommandDone i r =>
      match nth_error (inflight w) i with
      | Some (PCommand start isAwaitable) =>
          let '(w', again) :=
            command_callback start isAwaitable r
                             (with_inflight (remove_nth i) w) in
          match again with
          | Some p => with_inflight (fun l => p :: l) w'
          | None => w'
          end
      | _ => w
      end
  | Atick =>
      match ticks w with
      | e :: q => emit e (with_ticks (fun _ => q) w)
      | [] => w
      end
  | Aadvance d =>
      mkWorld (monitor w) (server w) (now w + Z.max 0 d) (timers w)
              (next_timer w) (inflight w) (ticks w) (log w)
  | Adescription sd =>
      mkWorld (monitor w) sd (now w) (timers w) (next_timer w)
              (inflight w) (ticks w) (log w)
  end.

Definition run (acts : list Action) (w : World) : World :=
  fold_left (fun w a => step a w) acts w.

(** [new Monitor(server, options)] (lines 38-88) at time [t0]. *)
Definition new_Monitor (addr : string) (description : ServerDescription)
    (o : Options) (t0 : Z) : World :=
  mkWorld (mkMonitor STATE_CLOSED None None None addr o)
          description t0 [] O [] [] [].

(** ** Reading the log *)

Definition events (l : list Effect) : list Event :=
  flat_map (fun e => match e with Emit ev => [ev] | _ => [] end) l.

Definition destroyed (l : list Effect) : list (Connection * bool) :=
  flat_map (fun e => match e with Destroy c f => [(c, f)] | _ => [] end) l.

Definition is_pool_reset (e : Event) : bool :=
  match e with
  | resetConnectionPool => true
  | _ => false
  end.

Definition pool_resets (l : list Effect) : nat :=
  List.length (filter is_pool_reset (events l)).

(** ** The timer discipline *)

(** No timer is armed, or exactly one is and [kMonitorId] holds its
    handle. *)
Definition timer_ok (w : World) : bool :=
  match timers w with
  | [] => true
  | [t] =>
      match kMonitorId (monitor w) with
      | Some id => Nat.eqb id (t_id t)
      | None => false
      end
  | _ => false
  end.


(** The round [checkServer] starts in [w]. *)
Definition round_of (w : World) : Pending :=
  match kConnection (monitor w) with
  | Some _ => PCommand (now w) (is_some (sd_topologyVersion (server w)))
  | None => PConnect (now w)
  end.

(** The call [checkServer] makes in [w]. *)
Definition request_of (w : World) : Effect :=
  match kConnection (monitor w) with
  | Some c =>
      RunCommand c
        (fst (round_command (options (monitor w)) (sd_topologyVersion (server w))))
        (snd (round_command (options (monitor w)) (sd_topologyVersion (server w))))
  | None => Connect
  end.

(** What [clearTimeout(h)] logs and leaves armed. *)
Definition cleared (h : option nat) : list Effect :=
  match h with
  | Some id => [ClearTimeout id]
  | None => []
  end.

Definition without (h : option nat) (l : list Timer) : list Timer :=
  match h with
  | Some id => filter (fun t => negb (id_is id t)) l
  | None => l
  end.

Definition open (s : State) : bool :=
  match s with
  | STATE_IDLE | STATE_MONITORING => true
  | STATE_CLOSED | STATE_CLOSING => false
  end.

Definition streaming (p : Pending) : bool :=
  match p with
  | PCommand _ isAwaitable => isAwaitable
  | PConnect _ => false
  end.

(** The monitors that exist: a constructed monitor after any sequence of
    calls and event-loop steps. *)
Definition reachable (w : World) : Prop :=
  exists addr description o t0 acts,
    w = run acts (new_Monitor addr description o t0).

(** The steps other than [reset()] and [close()]. *)
Definition calm (a : Action) : bool :=
  match a with
  | Areset | Aclose => false
  | _ => true
  end.

(** One round is outstanding in state Monitoring, none otherwise. *)
Definition round_ok (w : World) : bool :=
  match s_state (monitor w), inflight w with
  | STATE_MONITORING, [_] => true
  | STATE_MONITORING, _ => false
  | _, [] => true
  | _, _ => false
  end.

Definition public (a : Action) : bool :=
  match a with
  | Aconnect | ArequestCheck | Areset | Aclose => true
  | _ => false
  end.

(** The next round is scheduled in [w'], from [w], with delay argument
    [ms]: one timer, armed now, that will call [requestCheck]; the state
    is Idle and the check time is stamped. *)
Definition scheduled (ms : option Z) (w w' : World) : Prop :=
  timers w' = [mkTimer (next_timer w) ClearIdThenRequestCheck ms (now w)]
  /\ s_state (monitor w') = STATE_IDLE
  /\ kMonitorId (monitor w') = Some (next_timer w)
  /\ kLastCheckTime (monitor w') = Some (now w).

(** The event-loop step in which the outstanding round [p], the [i]-th
    one, fails with [err]: its callback is called with the error. *)
Definition fails (i : nat) (p : Pending) (err : Error) : Action :=
  match p with
  | PConnect _ => AconnectDone i (inl err)
  | PCommand _ _ => AcommandDone i (inl err)
  end.

(** The step in which the outstanding round [p] gets the reply [reply]:
    from the handshake on the new connection [conn] when the round is a
    [connect], from the command otherwise. *)
Definition replies (i : nat) (p : Pending) (conn : Connection)
    (reply : IsMaster) : Action :=
  match p with
  | PConnect _ => AconnectDone i (inr (conn, reply))
  | PCommand _ _ => AcommandDone i (inr reply)
  end.

(** ** Counting heartbeat events *)

Definition is_started (e : Event) : bool :=
  match e with
  | serverHeartbeatStarted _ => true
  | _ => false
  end.

Definition is_outcome (e : Event) : bool :=
  match e with
  | serverHeartbeatSucceeded _ _ _ | serverHeartbeatFailed _ _ _ => true
  | _ => false
  end.

Definition starts (l : list Event) : nat := List.length (filter is_started l).

Definition outcomes (l : list Event) : nat := List.length (filter is_outcome l).

(** The round that has the monitor in state Monitoring has been
    announced and has no outcome yet. *)
Definition open_rounds (w : World) : nat :=
  match s_state (monitor w) with
  | STATE_MONITORING => 1
  | _ => 0
  end.

Definition is_monitoring (e : Event) : bool :=
  match e with
  | monitoring => true
  | _ => false
  end.

(** Every started round has its outcome, the one in progress apart; one
    round is outstanding in state Monitoring and none otherwise; only
    the legacy [monitoring] event waits for the next tick. *)
Definition bracketed (w : World) : Prop :=
  starts (events (log w)) = (outcomes (events (log w)) + open_rounds w)%nat
  /\ round_ok w = true
  /\ forallb is_monitoring (ticks w) = true.

(** ** What the monitor asks of its collaborators *)

(** The effects that start something: arming a timer, opening a
    connection, sending a command. *)
Definition is_request (e : Effect) : bool :=
  match e with
  | SetTimeout _ _ _ | Connect | RunCommand _ _ _ => true
  | _ => false
  end.

Definition requests (l : list Effect) : list Effect := filter is_request l.

(** ** Sequences of steps *)

(** The steps other than [connect()]. *)
Definition not_connect (a : Action) : bool :=
  match a with
  | Aconnect => false
  | _ => true
  end.

(** [n] calls of [requestCheck()], [d] ms apart. *)
Definition storm (d : Z) (n : nat) : list Action :=
  List.concat (repeat [Aadvance d; ArequestCheck] n).

(** The replies of a streaming round arriving one after the other, each
    after [d] ms. *)
Definition stream (d : Z) (replies : list IsMaster) : list Action :=
  flat_map (fun r => [Aadvance d; AcommandDone 0 (inr r)]) replies.

(** The events of a streaming round whose replies arrive [d] ms apart,
    the first one [first] ms after the round started. *)
Fixpoint streamed (addr : string) (first d : Z) (replies : list IsMaster)
  : list Event :=
  match replies with
  | [] => []
  | r :: rest =>
      serverHeartbeatSucceeded first r addr
      :: serverHeartbeatStarted addr
      :: streamed addr d d rest
  end.

(** ** A monitor to run *)

(** [new Monitor(server, {})] for a server at ["db:27017"] whose type is
    still [Unknown]: the default 10000/10000/500 ms. *)
Definition fresh : World :=
  new_Monitor "db:27017" (mkDescription Unknown None)
              (makeOptions None None None None) 0.

Definition tv1 : TopologyVersion := mkTopologyVersion 1 1.

(** The monitor connected, its first round succeeded (connection 7),
    then it was closed. *)
Definition closed_again : World :=
  run [Aconnect; AconnectDone 0 (inr (7%nat, mkIsMaster None)); Aclose] fresh.

(** The first round connected (connection 7, a reply with a topology
    version), the next round was scheduled without delay, 1 ms passed. *)
Definition about_to_fire : World :=
  run [Aconnect; AconnectDone 0 (inr (7%nat, mkIsMaster (Some tv1)));
       Aadvance 1] fresh.

(** The first round connected to a primary, the timer fired after the
    heartbeat interval: the second round, a plain command, is
    outstanding. *)
Definition second_round : World :=
  run [Aconnect; AconnectDone 0 (inr (7%nat, mkIsMaster None));
       Adescription (mkDescription RSPrimary None);
       Aadvance 10000; Atimer 0] fresh.

(** [reset()] during that round, then [requestCheck()] at once. *)
Definition overlapping : World := run [Areset; ArequestCheck] second_round.

(** The callback of the interrupted round is then called with the error
    of the destroyed connection. *)
Definition stale_failure : World :=
  step (AcommandDone 0 (inl (MongoNetworkError "connection closed")))
       overlapping.

(** The first round connected, and the topology recorded the reply: a
    primary with a topology version. *)
Definition streaming_ready : World :=
  run [Aconnect; AconnectDone 0 (inr (7%nat, mkIsMaster (Some tv1)));
       Adescription (mkDescription RSPrimary (Some tv1))] fresh.

(** The timer of [streaming_ready] has fired: a streaming round is
    outstanding. *)
Definition streaming_round : World := run [Atimer 0] streaming_ready.

Definition tv2 : TopologyVersion := mkTopologyVersion 1 2.

End Mon.

(* ================================================================== *)
(** * Read preference: validation and equality *)
(* ================================================================== *)

Section ReadPreferenceFacts.
Import JS RP.

Variable ToNumber_ext : JsVal -> JsNum.

Lemma isValid_modes (m : JsVal) :
  isValid m = true <->
  m = JStr PRIMARY \/ m = JStr PRIMARY_PREFERRED \/ m = JStr SECONDARY
  \/ m = JStr SECONDARY_PREFERRED \/ m = JStr NEAREST \/ m = JNull.
Proof.
  unfold isValid, includes, VALID_MODES; simpl.
  split.
  - destruct m as [| |b|n|s|l|o]; simpl; try discriminate; auto 10.
    rewrite !orb_false_r, !orb_true_iff, !String.eqb_eq.
    intros [H|[H|[H|[H|H]]]]; subst s; auto 10.
  - intros [H|[H|[H|[H|[H|H]]]]]; subst m; reflexivity.
Qed.

Lemma isValid_split (m : JsVal) :
  isValid m = includes five_modes m || strict_eq JNull m.
Proof.
  unfold isValid, includes, VALID_MODES, five_modes; simpl.
  now rewrite !orb_false_r, <- !orb_assoc.
Qed.

Lemma truthy_get_and (o : JsVal) (k : string) :
  truthy (js_and o (get o k)) = truthy (get o k).
Proof. destruct o as [| |b|[|z]|s|l|ps]; simpl; try reflexivity;
       unfold js_and; simpl; try destruct b; try reflexivity;
       match goal with |- context [if ?c then _ else _] => destruct c eqn:E end;
       simpl; auto. Qed.

Lemma get_or_empty (o : JsVal) (k : string) :
  get (js_or o (JObj [])) k = get o k.
Proof. destruct o as [| |b|[|z]|s|l|ps]; unfold js_or; simpl; try reflexivity;
       match goal with |- context [if ?c then _ else _] => destruct c end;
       reflexivity. Qed.

Lemma nullish_not_truthy (v : JsVal) : nullish v = true -> truthy v = false.
Proof. destruct v; simpl; congruence. Qed.

Lemma throws_check_primary (this : Instance) :
  throws (check_primary this)
  = strict_eq (mode this) (JStr PRIMARY)
    && (nonempty_array (tags this)
        || truthy (maxStalenessSeconds this)
        || truthy (hedge this)).
Proof.
  unfold check_primary.
  destruct (strict_eq (mode this) (JStr PRIMARY)); simpl; [|reflexivity].
  destruct (nonempty_array (tags this)); simpl; [reflexivity|].
  destruct (truthy (maxStalenessSeconds this)); simpl; [reflexivity|].
  destruct (truthy (hedge this)); reflexivity.
Qed.

Lemma shuffle_args_given (tags options : JsVal) :
  shuffle_args tags options
  = if truthy (given_tags tags options) && negb (isArray (given_tags tags options))
    then inr TagsNotArray
    else inl (given_tags tags options, given_options tags options).
Proof.
  unfold shuffle_args, given_tags, given_options, second_is_options.
  destruct (is_undefined options && typeof_object tags && negb (isArray tags));
    reflexivity.
Qed.

(** C8 (amended).  Constructing a read preference throws exactly when:
    the mode is neither one of the five recognized names nor [null]; or
    what is passed as tags is truthy and not an array (a non-array
    object in second place with no third argument counts as the options,
    not as tags); or [maxStalenessSeconds] is neither [null] nor
    [undefined] and is [<= 0]; or mode [primary] comes with a non-empty
    tag array, a truthy [maxStalenessSeconds] or a truthy [hedge].
    The modes that pass are the five names and [null].  Mode [secondary]
    with a non-empty tag array and nothing else is constructed. *)
Theorem ReadPreference_throws_exactly :
  (forall mode tags options,
      throws (ReadPreference ToNumber_ext mode tags options)
      = amended_throws ToNumber_ext mode tags options)
  /\ (forall mode,
        includes five_modes mode || strict_eq JNull mode = true <->
        mode = JStr "primary" \/ mode = JStr "primaryPreferred"
        \/ mode = JStr "secondary" \/ mode = JStr "secondaryPreferred"
        \/ mode = JStr "nearest" \/ mode = JNull)
  /\ (forall t ts,
        ReadPreference ToNumber_ext (JStr "secondary") (JArr (t :: ts)) JUndefined
        = Returns (mkInstance (JStr "secondary") (JArr (t :: ts))
                              JUndefined JUndefined JUndefined)).
Proof.
  split; [|split].
  - intros mode tags options.
    unfold ReadPreference, amended_throws.
    rewrite isValid_split, shuffle_args_given.
    destruct (includes five_modes mode || strict_eq JNull mode); simpl;
      [|reflexivity].
    set (tags' := given_tags tags options).
    set (options' := given_options tags options).
    destruct (truthy tags' && negb (isArray tags')); simpl; [reflexivity|].
    rewrite get_or_empty.
    destruct (nullish (get options' "maxStalenessSeconds")) eqn:Hn; simpl.
    + rewrite throws_check_primary; simpl.
      rewrite truthy_get_and, (nullish_not_truthy _ Hn). reflexivity.
    + destruct (le_zero ToNumber_ext (get options' "maxStalenessSeconds"));
        simpl; [reflexivity|].
      rewrite throws_check_primary; simpl.
      rewrite truthy_get_and. reflexivity.
  - intro mode. rewrite <- isValid_split. apply isValid_modes.
  - intros t ts. reflexivity.
Qed.

(** C9.  For two instances the constructor returned, [a.equals(b)] is
    true exactly when their modes are the same; tags, staleness and hedge
    play no part. *)
Theorem equals_iff_same_mode
    (m1 t1 o1 m2 t2 o2 : JsVal) (a b : Instance)
    (Ha : ReadPreference ToNumber_ext m1 t1 o1 = Returns a)
    (Hb : ReadPreference ToNumber_ext m2 t2 o2 = Returns b) :
  equals a b = true <-> mode a = mode b.
Proof.
  assert (Hmode : forall m t o r,
             ReadPreference ToNumber_ext m t o = Returns r ->
             mode r = m /\ isValid m = true).
  { intros m t o r. unfold ReadPreference.
    destruct (isValid m); simpl; [|discriminate].
    destruct (shuffle_args t o) as [[t' o']|e]; [|discriminate].
    destruct (negb _); [destruct (le_zero _ _); [discriminate|]|];
      unfold check_primary; simpl;
      repeat match goal with
             | |- context [if ?c then _ else _] => destruct c
             end;
      intro H; inversion H; subst; auto. }
  destruct (Hmode _ _ _ _ Ha) as [Ea Va].
  destruct (Hmode _ _ _ _ Hb) as [Eb Vb].
  unfold equals. rewrite Ea, Eb.
  apply isValid_modes in Va, Vb.
  clear Hmode Ha Hb Ea Eb.
  destruct Va as [E|[E|[E|[E|[E|E]]]]]; subst m1;
    destruct Vb as [E|[E|[E|[E|[E|E]]]]]; subst m2;
    split; intro H; solve [reflexivity | vm_compute in H; discriminate H].
Qed.

(** C10.  A non-array object in second place with no third argument is
    read as the options: the call behaves as the call with that object in
    third place, and the instance it returns has [tags] undefined and
    [hedge] and [maxStalenessSeconds] taken from the object.  The fields
    take effect: for a valid mode, a [maxStalenessSeconds] of the object
    that is [<= 0] makes construction throw; otherwise, with mode
    [primary], a truthy [maxStalenessSeconds] or a truthy [hedge] of the
    object makes it throw; otherwise the call returns the instance with
    [tags] undefined, the object's [hedge], and its
    [maxStalenessSeconds] with [minWireVersion = 5] when it has one.  A
    truthy second argument that is not an array, together with a third
    argument, fails the argument check of lines 21-26 and construction
    throws: the error is "ReadPreference tags must be an array" for every
    mode that passed the mode check of line 18, which runs first. *)
Theorem second_argument_as_options :
  (forall mode props,
      let st := lookup "maxStalenessSeconds" props in
      let hd := lookup "hedge" props in
      let call := ReadPreference ToNumber_ext mode (JObj props) JUndefined in
      call = ReadPreference ToNumber_ext mode JUndefined (JObj props)
      /\ (forall rp,
            call = Returns rp ->
            tags rp = JUndefined
            /\ hedge rp = hd
            /\ maxStalenessSeconds rp = (if nullish st then JUndefined else st))
      /\ (isValid mode = true ->
          (nullish st = false -> le_zero ToNumber_ext st = true ->
           call = Throws StalenessNotPositive)
          /\ (nullish st = true \/ le_zero ToNumber_ext st = false ->
              (strict_eq mode (JStr PRIMARY) = false
               \/ (truthy st = false /\ truthy hd = false) ->
               call
               = Returns (mkInstance mode JUndefined hd
                            (if nullish st then JUndefined else st)
                            (if nullish st then JUndefined
                             else JNum (Fin 5))))
              /\ (strict_eq mode (JStr PRIMARY) = true ->
                  truthy st = true ->
                  call = Throws PrimaryWithStaleness)
              /\ (strict_eq mode (JStr PRIMARY) = true ->
                  truthy st = false -> truthy hd = true ->
                  call = Throws PrimaryWithHedge))))
  /\ (forall mode tags options,
        truthy tags = true ->
        isArray tags = false ->
        is_undefined options = false ->
        shuffle_args tags options = inr TagsNotArray
        /\ throws (ReadPreference ToNumber_ext mode tags options) = true
        /\ (isValid mode = true ->
            ReadPreference ToNumber_ext mode tags options
            = Throws TagsNotArray)).
Proof.
  split.
  - intros mode props st hd call. subst st hd call.
    split; [reflexivity|]. split.
    + intro rp. unfold ReadPreference.
      destruct (isValid mode); simpl; [|discriminate].
      destruct (nullish (lookup "maxStalenessSeconds" props)); simpl.
      * unfold check_primary; simpl;
          repeat match goal with
                 | |- context [if ?c then _ else _] => destruct c
                 end; intro H; inversion H; subst; auto.
      * destruct (le_zero _ _); [discriminate|].
        unfold check_primary; simpl;
          repeat match goal with
                 | |- context [if ?c then _ else _] => destruct c
                 end; intro H; inversion H; subst; auto.
    + intro V. unfold ReadPreference, check_primary. rewrite V.
      unfold js_and, js_or. simpl.
      destruct (nullish (lookup "maxStalenessSeconds" props)) eqn:En; simpl.
      * rewrite (nullish_not_truthy _ En).
        split; [congruence|]. intros _.
        destruct (strict_eq mode (JStr PRIMARY)),
                 (truthy (lookup "hedge" props));
          repeat split; intros; try reflexivity; intuition congruence.
      * destruct (le_zero ToNumber_ext (lookup "maxStalenessSeconds" props));
          (split; [congruence|]); (intros [?|?]; [congruence|try congruence]).
        destruct (strict_eq mode (JStr PRIMARY)),
                 (truthy (lookup "maxStalenessSeconds" props)),
                 (truthy (lookup "hedge" props));
          repeat split; intros; try reflexivity; intuition congruence.
  - intros mode tags options Ht Ha Ho.
    assert (Hs : shuffle_args tags options = inr TagsNotArray)
      by (unfold shuffle_args; now rewrite Ho, Ht, Ha).
    split; [exact Hs|].
    unfold ReadPreference. rewrite Hs.
    destruct (isValid mode); simpl; split;
      solve [reflexivity | discriminate].
Qed.

End ReadPreferenceFacts.

(** C8, as the specification words it, fails twice: mode [null] is none
    of the five names and is accepted; mode [secondary] with the string
    ["east"] as tags meets none of the listed conditions and throws. *)
Lemma ReadPreference_throws_counterexample :
  let toNum := fun _ : JS.JsVal => JS.NaN in
  (RP.spec_throws toNum JS.JNull JS.JUndefined JS.JUndefined = true
   /\ RP.ReadPreference toNum JS.JNull JS.JUndefined JS.JUndefined
      = RP.Returns (RP.mkInstance JS.JNull JS.JUndefined JS.JUndefined
                                  JS.JUndefined JS.JUndefined))
  /\ (RP.spec_throws toNum (JS.JStr "secondary") (JS.JStr "east") JS.JUndefined
      = false
      /\ RP.ReadPreference toNum (JS.JStr "secondary") (JS.JStr "east")
                           JS.JUndefined
         = RP.Throws RP.TagsNotArray).
Proof. repeat split. Qed.

(** The example of the specification: two instances of mode
    [secondaryPreferred] with different tag sets are equal. *)
Lemma equals_iff_same_mode_witness :
  let toNum := fun _ : JS.JsVal => JS.NaN in
  let east := JS.JArr [JS.JObj [("dc", JS.JStr "east")]] in
  let west := JS.JArr [JS.JObj [("dc", JS.JStr "west")]] in
  let a := RP.mkInstance (JS.JStr "secondaryPreferred") east
                         JS.JUndefined JS.JUndefined JS.JUndefined in
  let b := RP.mkInstance (JS.JStr "secondaryPreferred") west
                         JS.JUndefined JS.JUndefined JS.JUndefined in
  RP.ReadPreference toNum (JS.JStr "secondaryPreferred") east JS.JUndefined
  = RP.Returns a
  /\ RP.ReadPreference toNum (JS.JStr "secondaryPreferred") west JS.JUndefined
     = RP.Returns b
  /\ RP.tags a <> RP.tags b
  /\ RP.equals a b = true.
Proof.
  intros toNum east west a b.
  split; [reflexivity|]. split; [reflexivity|]. split; [discriminate|].
  apply (equals_iff_same_mode toNum
           (JS.JStr "secondaryPreferred") east JS.JUndefined
           (JS.JStr "secondaryPreferred") west JS.JUndefined a b);
    reflexivity.
Defined.

(** The options in second place take effect, and a string in second
    place before options is refused. *)
Lemma second_argument_as_options_witness :
  RP.isValid (JS.JStr "secondary") = true
  /\ JS.le_zero RP.no_coercion (JS.JNum (JS.Fin 90)) = false
  /\ RP.ReadPreference RP.no_coercion (JS.JStr "secondary") RP.stale90
                       JS.JUndefined
     = RP.Returns (RP.mkInstance (JS.JStr "secondary") JS.JUndefined RP.hedged
                                 (JS.JNum (JS.Fin 90)) (JS.JNum (JS.Fin 5)))
  /\ RP.ReadPreference RP.no_coercion (JS.JStr "secondary")
       (JS.JObj [("maxStalenessSeconds", JS.JNum (JS.Fin 0))]) JS.JUndefined
     = RP.Throws RP.StalenessNotPositive
  /\ RP.ReadPreference RP.no_coercion (JS.JStr "primary") RP.stale90
                       JS.JUndefined
     = RP.Throws RP.PrimaryWithStaleness
  /\ JS.truthy (JS.JStr "east") = true
  /\ JS.isArray (JS.JStr "east") = false
  /\ JS.is_undefined (JS.JObj []) = false
  /\ RP.ReadPreference RP.no_coercion (JS.JStr "secondary") (JS.JStr "east")
                       (JS.JObj [])
     = RP.Throws RP.TagsNotArray.
Proof.
  split; [reflexivity|]. split; [reflexivity|].
  split.
  { exact (proj1 (proj2 (proj2 (proj2
             (proj1 (second_argument_as_options RP.no_coercion)
                (JS.JStr "secondary")
                [("maxStalenessSeconds", JS.JNum (JS.Fin 90));
                 ("hedge", RP.hedged)])) eq_refl) (or_intror eq_refl))
             (or_introl eq_refl)). }
  split.
  { exact (proj1 (proj2 (proj2
             (proj1 (second_argument_as_options RP.no_coercion)
                (JS.JStr "secondary")
                [("maxStalenessSeconds", JS.JNum (JS.Fin 0))])) eq_refl)
             eq_refl eq_refl). }
  split.
  { exact (proj1 (proj2 (proj2 (proj2 (proj2
             (proj1 (second_argument_as_options RP.no_coercion)
                (JS.JStr "primary")
                [("maxStalenessSeconds", JS.JNum (JS.Fin 90));
                 ("hedge", RP.hedged)])) eq_refl) (or_intror eq_refl)))
             eq_refl eq_refl). }
  repeat (split; [reflexivity|]).
  apply (proj2 (second_argument_as_options RP.no_coercion)
           (JS.JStr "secondary") (JS.JStr "east") (JS.JObj []));
    reflexivity.
Defined.

(* ================================================================== *)
(** * Proof steps shared by the monitor lemmas *)
(* ================================================================== *)

(** Case split on the first [match] of the goal. *)
Ltac break :=
  match goal with
  | |- context [match ?x with _ => _ end] => destruct x eqn:?
  end.

(** Open a world down to the fields of its monitor. *)
Ltac world w :=
  destruct w as [[st kc kid klt ad op] sd nw tm nt inf tk lg]; simpl in *.

(** Run the operations of the monitor on an opened world. *)
Ltac exec :=
  cbv beta iota zeta delta
    [Mon.rescheduleMonitoring Mon.monitorServer Mon.checkServer
     Mon.teardown Mon.reset Mon.close Mon.connect Mon.requestCheck
     Mon.stateTransition Mon.legal Mon.stateTable Mon.state_eqb Mon.has
     Mon.INVALID_REQUEST_CHECK_STATES existsb orb andb negb
     Mon.clearTimeout Mon.setTimeout Mon.do Mon.emit Mon.with_monitor
     Mon.with_timers Mon.with_inflight Mon.with_ticks Mon.set_state
     Mon.set_connection Mon.set_monitorId Mon.set_lastCheckTime
     Mon.monitor Mon.server Mon.now Mon.timers Mon.next_timer
     Mon.inflight Mon.ticks Mon.log Mon.s_state Mon.kConnection
     Mon.kMonitorId Mon.kLastCheckTime Mon.address Mon.options
     Mon.round_of Mon.request_of Mon.round_command Mon.cleared
     Mon.without Mon.open Mon.is_some fst snd Mon.failureHandler
     Mon.monitorServer_callback Mon.connect_callback
     Mon.command_callback Mon.is_unknown Mon.calculateDurationInMs Mon.sd_type
     Mon.sd_topologyVersion Mon.im_topologyVersion].

(** The same, with the log flattened to [log ++ [e1; ...; en]]. *)
Ltac norm_log :=
  exec; repeat rewrite <- app_assoc; simpl; repeat rewrite app_nil_r.

(* ================================================================== *)
(** * Monitor: projections of the operations *)
(* ================================================================== *)

Section MonitorFacts.
Import Mon.

Lemma Long_fromNumber_fixes (z : Z) :
  Long_fromNumber z = z <-> Long_MIN <= z <= Long_MAX.
Proof.
  unfold Long_fromNumber, Long_MIN, Long_MAX.
  destruct (z <=? -9223372036854775808) eqn:E1;
    [apply Z.leb_le in E1|apply Z.leb_gt in E1];
    [|destruct (9223372036854775807 <=? z) eqn:E2;
      [apply Z.leb_le in E2|apply Z.leb_gt in E2]];
    split; intros; lia.
Qed.

Lemma makeTopologyVersion_fixes (tv : TopologyVersion) :
  Long_MIN <= counter tv <= Long_MAX -> makeTopologyVersion tv = tv.
Proof.
  intro H. destruct tv as [p c]. unfold makeTopologyVersion. simpl in *.
  now rewrite (proj2 (Long_fromNumber_fixes c) H).
Qed.

Lemma events_app (l1 l2 : list Effect) : events (l1 ++ l2) = events l1 ++ events l2.
Proof. apply flat_map_app. Qed.

Lemma destroyed_app (l1 l2 : list Effect) :
  destroyed (l1 ++ l2) = destroyed l1 ++ destroyed l2.
Proof. apply flat_map_app. Qed.

(** The transitions the monitor asks for are in the table: to Idle and to
    Closing from Idle or Monitoring, from Closing to Idle or Closed, to
    Monitoring from Closed or Idle.  The rejecting branch of
    [stateTransition] is never taken on these. *)
Lemma requested_transitions_legal :
  (forall s, open s = true ->
             legal s STATE_IDLE = true /\ legal s STATE_CLOSING = true)
  /\ legal STATE_CLOSING STATE_IDLE = true
  /\ legal STATE_CLOSING STATE_CLOSED = true
  /\ legal STATE_CLOSED STATE_MONITORING = true
  /\ legal STATE_IDLE STATE_MONITORING = true.
Proof.
  repeat split; destruct s; try discriminate; reflexivity.
Qed.

Lemma timer_ok_clear (w : World) :
  timer_ok w = true -> timers (clearTimeout (kMonitorId (monitor w)) w) = [].
Proof.
  unfold timer_ok, clearTimeout.
  destruct (timers w) as [|t [|t' l]] eqn:E; try discriminate.
  - destruct (kMonitorId (monitor w)); simpl; now rewrite E.
  - destruct (kMonitorId (monitor w)) as [id|]; [|discriminate].
    intro H. apply Nat.eqb_eq in H. subst id. simpl. rewrite E. simpl.
    unfold id_is. now rewrite Nat.eqb_refl.
Qed.

Lemma rescheduleMonitoring_closed (ms : option Z) (w : World) :
  open (s_state (monitor w)) = false -> rescheduleMonitoring ms w = w.
Proof. unfold rescheduleMonitoring. destruct (s_state (monitor w)); now simpl. Qed.

Lemma rescheduleMonitoring_open (ms : option Z) (w : World) :
  open (s_state (monitor w)) = true ->
  rescheduleMonitoring ms w
  = mkWorld
      (mkMonitor STATE_IDLE (kConnection (monitor w)) (Some (next_timer w))
                 (Some (now w)) (address (monitor w)) (options (monitor w)))
      (server w) (now w)
      (without (kMonitorId (monitor w)) (timers w)
       ++ [mkTimer (next_timer w) ClearIdThenRequestCheck ms (now w)])
      (S (next_timer w)) (inflight w) (ticks w)
      (log w ++ cleared (kMonitorId (monitor w))
       ++ [SetTimeout (next_timer w) ClearIdThenRequestCheck ms]).
Proof.
  world w. intro H.
  destruct st; try discriminate; destruct kid; norm_log; reflexivity.
Qed.

Lemma monitorServer_eq (w : World) :
  legal (s_state (monitor w)) STATE_MONITORING = true ->
  monitorServer w
  = mkWorld
      (mkMonitor STATE_MONITORING (kConnection (monitor w))
                 (kMonitorId (monitor w)) (kLastCheckTime (monitor w))
                 (address (monitor w)) (options (monitor w)))
      (server w) (now w) (timers w) (next_timer w)
      (inflight w ++ [round_of w]) (ticks w ++ [monitoring])
      (log w ++ [NextTick monitoring;
                 Emit (serverHeartbeatStarted (address (monitor w)));
                 request_of w]).
Proof.
  world w. intro H.
  destruct st; try discriminate;
    destruct kc; destruct sd as [ty [tv|]]; norm_log; reflexivity.
Qed.

Lemma teardown_eq (w : World) :
  open (s_state (monitor w)) = true ->
  teardown w
  = mkWorld
      (mkMonitor STATE_CLOSING (kConnection (monitor w))
                 (kMonitorId (monitor w)) (kLastCheckTime (monitor w))
                 (address (monitor w)) (options (monitor w)))
      (server w) (now w) (without (kMonitorId (monitor w)) (timers w))
      (next_timer w) (inflight w) (ticks w)
      (log w ++ [Cancel] ++ cleared (kMonitorId (monitor w))
       ++ match kConnection (monitor w) with
          | Some c => [Destroy c true]
          | None => []
          end).
Proof.
  world w. intro H.
  destruct st; try discriminate; destruct kid, kc; norm_log; reflexivity.
Qed.

Lemma reset_open (w : World) :
  open (s_state (monitor w)) = true ->
  reset w
  = mkWorld
      (mkMonitor STATE_IDLE (kConnection (monitor w)) (Some (next_timer w))
                 (kLastCheckTime (monitor w)) (address (monitor w))
                 (options (monitor w)))
      (server w) (now w)
      (without (kMonitorId (monitor w)) (timers w)
       ++ [mkTimer (next_timer w) CallRequestCheck
                   (Some (heartbeatFrequencyMS (options (monitor w)))) (now w)])
      (S (next_timer w)) (inflight w) (ticks w)
      (log w ++ [Cancel] ++ cleared (kMonitorId (monitor w))
       ++ match kConnection (monitor w) with
          | Some c => [Destroy c true]
          | None => []
          end
       ++ [SetTimeout (next_timer w) CallRequestCheck
                      (Some (heartbeatFrequencyMS (options (monitor w))))]).
Proof.
  intro H. unfold reset.
  destruct (s_state (monitor w)) eqn:E; try discriminate;
    (rewrite teardown_eq by (now rewrite E));
    norm_log; reflexivity.
Qed.

Lemma close_open (w : World) :
  open (s_state (monitor w)) = true ->
  close w
  = mkWorld
      (mkMonitor STATE_CLOSED (kConnection (monitor w))
                 (kMonitorId (monitor w)) (kLastCheckTime (monitor w))
                 (address (monitor w)) (options (monitor w)))
      (server w) (now w) (without (kMonitorId (monitor w)) (timers w))
      (next_timer w) (inflight w) (ticks w)
      (log w ++ [Cancel] ++ cleared (kMonitorId (monitor w))
       ++ match kConnection (monitor w) with
          | Some c => [Destroy c true]
          | None => []
          end
       ++ [Emit close_event]).
Proof.
  intro H. unfold close.
  destruct (s_state (monitor w)) eqn:E; try discriminate;
    (rewrite teardown_eq by (now rewrite E));
    norm_log; reflexivity.
Qed.

Lemma reset_closed (w : World) :
  open (s_state (monitor w)) = false -> reset w = w.
Proof. unfold reset. destruct (s_state (monitor w)); now simpl. Qed.

Lemma close_closed (w : World) :
  open (s_state (monitor w)) = false -> close w = w.
Proof. unfold close. destruct (s_state (monitor w)); now simpl. Qed.

Lemma requestCheck_not_idle (w : World) :
  s_state (monitor w) <> STATE_IDLE -> requestCheck w = w.
Proof. unfold requestCheck. destruct (s_state (monitor w)); simpl; congruence. Qed.

Lemma requestCheck_idle (w : World) :
  s_state (monitor w) = STATE_IDLE ->
  requestCheck w
  = if (remainingTime w >? minHeartbeatFrequencyMS (options (monitor w)))
       && is_some (kMonitorId (monitor w))
    then rescheduleMonitoring (Some (minHeartbeatFrequencyMS (options (monitor w))))
                              (clearTimeout (kMonitorId (monitor w)) w)
    else monitorServer (clearTimeout (kMonitorId (monitor w)) w).
Proof. unfold requestCheck. now intros ->. Qed.

Lemma clearTimeout_eq (h : option nat) (w : World) :
  clearTimeout h w
  = mkWorld (monitor w) (server w) (now w) (without h (timers w))
            (next_timer w) (inflight w) (ticks w) (log w ++ cleared h).
Proof. world w. destruct h; norm_log; reflexivity. Qed.

(** *** What does not touch the timers *)

Lemma timer_ok_without (w : World) :
  timer_ok w = true -> without (kMonitorId (monitor w)) (timers w) = [].
Proof.
  intro H. generalize (timer_ok_clear w H).
  now rewrite clearTimeout_eq.
Qed.

Lemma timer_ok_none (w : World) :
  timers w = [] -> timer_ok w = true.
Proof. unfold timer_ok. now intros ->. Qed.

Lemma timer_ok_rescheduleMonitoring (ms : option Z) (w : World) :
  timer_ok w = true -> timer_ok (rescheduleMonitoring ms w) = true.
Proof.
  intro H. destruct (open (s_state (monitor w))) eqn:E.
  - rewrite rescheduleMonitoring_open by assumption.
    unfold timer_ok; simpl. rewrite (timer_ok_without w H); simpl.
    apply Nat.eqb_refl.
  - now rewrite rescheduleMonitoring_closed.
Qed.

Lemma monitorServer_timers (w : World) :
  timers (monitorServer w) = timers w
  /\ kMonitorId (monitor (monitorServer w)) = kMonitorId (monitor w).
Proof.
  world w. destruct st, kc, sd as [ty [tv|]]; exec; split; reflexivity.
Qed.

Lemma timer_ok_monitorServer (w : World) :
  timer_ok (monitorServer w) = timer_ok w.
Proof.
  unfold timer_ok. destruct (monitorServer_timers w) as [-> ->]. reflexivity.
Qed.

Lemma timer_ok_requestCheck (w : World) :
  timer_ok w = true -> timer_ok (requestCheck w) = true.
Proof.
  intro H. destruct (s_state (monitor w)) eqn:E;
    try (rewrite requestCheck_not_idle by congruence; assumption).
  rewrite requestCheck_idle by assumption.
  assert (H1 : timer_ok (clearTimeout (kMonitorId (monitor w)) w) = true).
  { apply timer_ok_none. now apply timer_ok_clear. }
  destruct (_ && _).
  - now apply timer_ok_rescheduleMonitoring.
  - now rewrite timer_ok_monitorServer.
Qed.

Lemma timer_ok_reset (w : World) :
  timer_ok w = true -> timer_ok (reset w) = true.
Proof.
  intro H. destruct (open (s_state (monitor w))) eqn:E.
  - rewrite reset_open by assumption.
    unfold timer_ok; simpl. rewrite (timer_ok_without w H); simpl.
    apply Nat.eqb_refl.
  - now rewrite reset_closed.
Qed.

Lemma timer_ok_close (w : World) :
  timer_ok w = true -> timer_ok (close w) = true.
Proof.
  intro H. destruct (open (s_state (monitor w))) eqn:E.
  - rewrite close_open by assumption.
    unfold timer_ok; simpl. now rewrite (timer_ok_without w H).
  - now rewrite close_closed.
Qed.

Lemma timer_ok_connect (w : World) :
  timer_ok w = true -> timer_ok (connect w) = true.
Proof.
  intro H. unfold connect.
  destruct (s_state (monitor w)); try assumption.
  now rewrite timer_ok_monitorServer.
Qed.

Lemma timer_ok_callback (err : option Error) (isMaster : option IsMaster)
    (w : World) :
  timer_ok w = true -> timer_ok (monitorServer_callback err isMaster w) = true.
Proof.
  intro H. unfold monitorServer_callback.
  repeat break; now apply timer_ok_rescheduleMonitoring.
Qed.

Lemma timer_ok_failureHandler (start : Z) (err : Error) (w : World) :
  timer_ok w = true -> timer_ok (failureHandler start err w) = true.
Proof.
  intro H. unfold failureHandler.
  apply timer_ok_callback.
  destruct (kConnection (monitor w)), (is_network err); exact H.
Qed.

Lemma timer_ok_connect_callback (start : Z)
    (r : Error + (Connection * IsMaster)) (w : World) :
  timer_ok w = true -> timer_ok (connect_callback start r w) = true.
Proof.
  intro H. destruct r as [err|[conn reply]]; simpl.
  - apply timer_ok_failureHandler. destruct (is_network err); exact H.
  - apply timer_ok_callback. exact H.
Qed.

Lemma timer_ok_command_callback (start : Z) (aw : bool)
    (r : Error + IsMaster) (w : World) :
  timer_ok w = true ->
  timer_ok (fst (command_callback start aw r w)) = true.
Proof.
  intro H. destruct r as [err|reply]; simpl.
  - now apply timer_ok_failureHandler.
  - destruct aw; simpl; [exact H|]. now apply timer_ok_callback.
Qed.

Lemma find_id_is (id : nat) (l : list Timer) (t : Timer) :
  find (id_is id) l = Some t -> t_id t = id.
Proof.
  intro H. apply find_some in H. destruct H as [_ H].
  now apply Nat.eqb_eq in H.
Qed.

Lemma timer_ok_step (a : Action) (w : World) :
  timer_ok w = true -> timer_ok (step a w) = true.
Proof.
  intro H. destruct a; simpl.
  - now apply timer_ok_connect.
  - now apply timer_ok_requestCheck.
  - now apply timer_ok_reset.
  - now apply timer_ok_close.
  - destruct (find (id_is id) (timers w)) as [t|] eqn:F; [|exact H].
    destruct (due w t); [|exact H].
    assert (E : filter (fun t => negb (id_is id t)) (timers w) = []).
    { pose proof (find_id_is _ _ _ F) as Hid.
      generalize (timer_ok_without w H). unfold timer_ok in H.
      destruct (timers w) as [|t0 [|t1 l]]; try discriminate.
      destruct (kMonitorId (monitor w)) as [k|]; [|discriminate].
      apply Nat.eqb_eq in H. simpl in F. intros _.
      destruct (id_is id t0) eqn:I; [|discriminate].
      simpl. now rewrite I. }
    destruct (t_cb t); simpl; apply timer_ok_requestCheck;
      apply timer_ok_none; simpl; exact E.
  - destruct (nth_error (inflight w) i) as [[start|start aw]|]; try exact H.
    apply timer_ok_connect_callback. exact H.
  - destruct (nth_error (inflight w) i) as [[start|start aw]|]; try exact H.
    pose proof (timer_ok_command_callback start aw r
                  (with_inflight (remove_nth i) w) H) as H1.
    destruct (command_callback start aw r _) as [w' [p|]]; exact H1.
  - destruct (ticks w); exact H.
  - exact H.
  - exact H.
Qed.

Lemma timer_ok_run (acts : list Action) (w : World) :
  timer_ok w = true -> timer_ok (run acts w) = true.
Proof.
  revert w. induction acts as [|a acts IH]; intros w H; simpl.
  - exact H.
  - apply IH. now apply timer_ok_step.
Qed.

Lemma reachable_timer_ok (w : World) : reachable w -> timer_ok w = true.
Proof.
  intros (addr & d & o & t0 & acts & ->). now apply timer_ok_run.
Qed.

Lemma reachable_step (a : Action) (w : World) :
  reachable w -> reachable (step a w).
Proof.
  intros (addr & d & o & t0 & acts & ->).
  exists addr, d, o, t0, (acts ++ [a]).
  unfold run. now rewrite fold_left_app.
Qed.

Lemma timer_ok_cases (w : World) :
  timer_ok w = true ->
  (List.length (timers w) <= 1)%nat
  /\ forall t, In t (timers w) -> kMonitorId (monitor w) = Some (t_id t).
Proof.
  unfold timer_ok.
  destruct (timers w) as [|t0 [|t1 l]]; try discriminate; simpl.
  - intros _. split; [lia|]. intros t [].
  - destruct (kMonitorId (monitor w)) as [k|]; [|discriminate].
    intro H. apply Nat.eqb_eq in H. subst k.
    split; [lia|]. intros t [<-|[]]. reflexivity.
Qed.

(** *** An Idle monitor holds a timer handle *)








End MonitorFacts.

(* ================================================================== *)
(** * Monitor: the public operations *)
(* ================================================================== *)

Section MonitorOperations.
Import Mon.

Lemma events_round (w : World) (a : string) :
  events [NextTick monitoring; Emit (serverHeartbeatStarted a); request_of w]
  = [serverHeartbeatStarted a].
Proof. unfold request_of. now destruct (kConnection (monitor w)). Qed.

Lemma events_cleared (h : option nat) : events (cleared h) = [].
Proof. now destruct h. Qed.

Lemma monitorServer_events (w : World) :
  legal (s_state (monitor w)) STATE_MONITORING = true ->
  events (log (monitorServer w))
  = events (log w) ++ [serverHeartbeatStarted (address (monitor w))].
Proof.
  intro H. rewrite monitorServer_eq by assumption. cbn [log].
  now rewrite events_app, events_round.
Qed.

(** C1 (amended).  On a monitor in state Closed, as [close()] leaves it,
    [reset()] and [requestCheck()] change nothing at all: no state
    change, no timer, no round, no event.  [connect()] does: the state
    becomes Monitoring and a round starts, announced by
    [serverHeartbeatStarted]; it arms no timer. *)
Theorem closed_monitor_calls (w : World)
    (Hclosed : s_state (monitor w) = STATE_CLOSED) :
  reset w = w
  /\ requestCheck w = w
  /\ s_state (monitor (connect w)) = STATE_MONITORING
  /\ inflight (connect w) = inflight w ++ [round_of w]
  /\ events (log (connect w))
     = events (log w) ++ [serverHeartbeatStarted (address (monitor w))]
  /\ timers (connect w) = timers w.
Proof.
  assert (L : legal (s_state (monitor w)) STATE_MONITORING = true)
    by now rewrite Hclosed.
  split; [apply reset_closed; now rewrite Hclosed|].
  split; [apply requestCheck_not_idle; now rewrite Hclosed|].
  unfold connect. rewrite Hclosed.
  rewrite (monitorServer_events w L).
  rewrite monitorServer_eq by assumption. simpl. auto.
Qed.


(** C7.  On a monitor in state Idle or Monitoring, [reset()] signals the
    cancellation token, clears the pending timer, destroys the private
    connection with [force: true] when there is one, leaves the state
    Idle and arms one timer for [heartbeatFrequencyMS] that will call
    [requestCheck]; these are its only effects, in this order.  In state
    Closed or Closing it does nothing.  The monitor is any one that keeps
    the timer discipline [timer_ok], as every reachable monitor does. *)
Theorem reset_behaviour (w : World) (Hok : timer_ok w = true) :
  let hb := heartbeatFrequencyMS (options (monitor w)) in
  (s_state (monitor w) = STATE_CLOSED \/ s_state (monitor w) = STATE_CLOSING ->
   reset w = w)
  /\ (s_state (monitor w) = STATE_IDLE \/ s_state (monitor w) = STATE_MONITORING ->
      log (reset w)
      = log w ++ [Cancel] ++ cleared (kMonitorId (monitor w))
        ++ match kConnection (monitor w) with
           | Some c => [Destroy c true]
           | None => []
           end
        ++ [SetTimeout (next_timer w) CallRequestCheck (Some hb)]
      /\ s_state (monitor (reset w)) = STATE_IDLE
      /\ timers (reset w) = [mkTimer (next_timer w) CallRequestCheck (Some hb) (now w)]
      /\ kMonitorId (monitor (reset w)) = Some (next_timer w)
      /\ inflight (reset w) = inflight w).
Proof.
  intro hb.
  split.
  - intros [H|H]; apply reset_closed; now rewrite H.
  - intro H. rewrite reset_open by (destruct H as [-> | ->]; reflexivity).
    simpl. rewrite (timer_ok_without w Hok). repeat split.
Qed.

End MonitorOperations.


Lemma reset_behaviour_witness :
  Mon.timer_ok Mon.about_to_fire = true
  /\ Mon.s_state (Mon.monitor Mon.about_to_fire) = Mon.STATE_IDLE
  /\ Mon.log (Mon.reset Mon.about_to_fire)
     = Mon.log Mon.about_to_fire
       ++ [Mon.Cancel; Mon.ClearTimeout 0; Mon.Destroy 7%nat true;
           Mon.SetTimeout 1 Mon.CallRequestCheck (Some 10000)]
  /\ Mon.s_state (Mon.monitor (Mon.reset Mon.about_to_fire)) = Mon.STATE_IDLE
  /\ Mon.timers (Mon.reset Mon.about_to_fire)
     = [Mon.mkTimer 1 Mon.CallRequestCheck (Some 10000) 1].
Proof.
  split; [reflexivity|]. split; [reflexivity|].
  destruct (proj2 (reset_behaviour Mon.about_to_fire eq_refl) (or_introl eq_refl))
    as (H1 & H2 & H3 & _).
  split; [exact H1|]. split; [exact H2|exact H3].
Defined.

(** C1, as the specification words it, fails for [connect()]: after
    [connect()], a first successful round and [close()], the monitor is
    Closed; a further [connect()] puts it in state Monitoring, emits
    [serverHeartbeatStarted] and starts a round. *)
Lemma closed_monitor_calls_counterexample :
  Mon.s_state (Mon.monitor Mon.closed_again) = Mon.STATE_CLOSED
  /\ Mon.s_state (Mon.monitor (Mon.connect Mon.closed_again))
     = Mon.STATE_MONITORING
  /\ Mon.events (Mon.log (Mon.connect Mon.closed_again))
     = Mon.events (Mon.log Mon.closed_again)
       ++ [Mon.serverHeartbeatStarted "db:27017"]
  /\ Mon.connect Mon.closed_again <> Mon.closed_again.
Proof.
  repeat split. intro H.
  apply (f_equal (fun w => Mon.s_state (Mon.monitor w))) in H.
  vm_compute in H. discriminate H.
Qed.

Lemma closed_monitor_calls_witness :
  Mon.s_state (Mon.monitor Mon.closed_again) = Mon.STATE_CLOSED
  /\ Mon.reset Mon.closed_again = Mon.closed_again
  /\ Mon.requestCheck Mon.closed_again = Mon.closed_again
  /\ Mon.s_state (Mon.monitor (Mon.connect Mon.closed_again))
     = Mon.STATE_MONITORING.
Proof.
  split; [reflexivity|].
  destruct (closed_monitor_calls Mon.closed_again eq_refl)
    as (H1 & H2 & H3 & _).
  auto.
Defined.

(* ================================================================== *)
(** * Monitor: one round and the scheduling of the next *)
(* ================================================================== *)

Section MonitorRounds.
Import Mon.

Lemma destroyed_cleared (h : option nat) : destroyed (cleared h) = [].
Proof. now destruct h. Qed.

(** Scheduling emits no event, destroys nothing and keeps the
    connection. *)
Lemma rescheduleMonitoring_quiet (ms : option Z) (w : World) :
  events (log (rescheduleMonitoring ms w)) = events (log w)
  /\ destroyed (log (rescheduleMonitoring ms w)) = destroyed (log w)
  /\ kConnection (monitor (rescheduleMonitoring ms w)) = kConnection (monitor w).
Proof.
  destruct (open (s_state (monitor w))) eqn:E.
  - rewrite rescheduleMonitoring_open by assumption. cbn [log monitor kConnection].
    rewrite !events_app, !destroyed_app, events_cleared, destroyed_cleared.
    simpl. now rewrite !app_nil_r.
  - now rewrite rescheduleMonitoring_closed.
Qed.

Lemma callback_is_reschedule (err : option Error) (isMaster : option IsMaster)
    (w : World) :
  exists ms, monitorServer_callback err isMaster w = rescheduleMonitoring ms w.
Proof.
  unfold monitorServer_callback. repeat break; eexists; reflexivity.
Qed.

Lemma callback_quiet (err : option Error) (isMaster : option IsMaster)
    (w : World) :
  events (log (monitorServer_callback err isMaster w)) = events (log w)
  /\ destroyed (log (monitorServer_callback err isMaster w)) = destroyed (log w)
  /\ kConnection (monitor (monitorServer_callback err isMaster w))
     = kConnection (monitor w).
Proof.
  destruct (callback_is_reschedule err isMaster w) as [ms ->].
  apply rescheduleMonitoring_quiet.
Qed.

Lemma failureHandler_effects (start : Z) (err : Error) (w : World) :
  let w' := failureHandler start err w in
  events (log w')
  = events (log w)
    ++ [serverHeartbeatFailed (now w - start) err (address (monitor w));
        resetServer err]
    ++ (if is_network err then [resetConnectionPool] else [])
  /\ destroyed (log w')
     = destroyed (log w)
       ++ match kConnection (monitor w) with
          | Some c => [(c, true)]
          | None => []
          end
  /\ kConnection (monitor w') = None.
Proof.
  unfold failureHandler. cbv zeta.
  match goal with
  | |- context [monitorServer_callback ?e ?i ?x] =>
      destruct (callback_quiet e i x) as (He & Hd & Hk)
  end.
  rewrite He, Hd, Hk. clear He Hd Hk.
  world w. destruct kc, (is_network err); exec;
    repeat rewrite events_app; repeat rewrite destroyed_app; simpl;
    repeat rewrite <- app_assoc; repeat rewrite app_nil_r; auto.
Qed.

(** C4 (amended).  When a round fails, the monitor emits
    [serverHeartbeatFailed] and then [resetServer].  A failed command on
    the existing connection destroys that connection with [force: true]
    and forgets it, and emits [resetConnectionPool] if and only if the
    error is a network error.  A failed [connect] has no connection to
    destroy and emits [resetConnectionPool] exactly once whatever the
    error: before the two events when the error is not a network error,
    after them when it is. *)
Theorem round_failure_events (w : World) (start : Z) (err : Error) :
  let failed :=
    [serverHeartbeatFailed (now w - start) err (address (monitor w));
     resetServer err] in
  (forall isAwaitable,
      let w' := fst (command_callback start isAwaitable (inl err) w) in
      events (log w')
      = events (log w) ++ failed
        ++ (if is_network err then [resetConnectionPool] else [])
      /\ destroyed (log w')
         = destroyed (log w)
           ++ match kConnection (monitor w) with
              | Some c => [(c, true)]
              | None => []
              end
      /\ kConnection (monitor w') = None)
  /\ (let w' := connect_callback start (inl err) w in
      events (log w')
      = events (log w)
        ++ (if is_network err then [] else [resetConnectionPool])
        ++ failed
        ++ (if is_network err then [resetConnectionPool] else [])
      /\ pool_resets (log w') = S (pool_resets (log w))
      /\ destroyed (log w') = destroyed (log w)
      /\ kConnection (monitor w') = None).
Proof.
  intro failed. split.
  - intro aw. simpl. apply failureHandler_effects.
  - cbv zeta. unfold connect_callback.
    match goal with
    | |- context [failureHandler start err ?x] =>
        destruct (failureHandler_effects start err x) as (He & Hd & Hk)
    end.
    rewrite Hd, Hk. unfold pool_resets. rewrite He. clear He Hd Hk.
    world w. destruct (is_network err); exec;
      repeat rewrite events_app; repeat rewrite destroyed_app; simpl;
      repeat rewrite filter_app; repeat rewrite length_app; simpl;
      repeat rewrite <- app_assoc; repeat rewrite app_nil_r;
      repeat split; lia.
Qed.

(** C5.  A round on an existing connection with a known topology
    version is a streaming round: the command carries
    [maxAwaitTimeMS = heartbeatFrequencyMS] and that topology version,
    its process id and its counter as a 64-bit [Long], which is the
    topology version itself whenever the counter is a 64-bit integer, as
    the counter of a topology version is; the socket timeout is
    [connectTimeoutMS + heartbeatFrequencyMS] and [exhaustAllowed] is
    set.  On an existing connection with no topology version the command
    is the plain [ismaster] with socket timeout [connectTimeoutMS].
    Without a connection the round is a [connect].  So the round is a
    streaming one exactly when a connection exists and the topology
    version is known. *)
Theorem checkServer_mode (w : World) :
  let o := options (monitor w) in
  let started := Emit (serverHeartbeatStarted (address (monitor w))) in
  (forall c tv,
      kConnection (monitor w) = Some c ->
      sd_topologyVersion (server w) = Some tv ->
      log (checkServer w)
      = log w
        ++ [started;
            RunCommand c
              (mkCommand true (Some (heartbeatFrequencyMS o))
                 (Some (mkTopologyVersion (processId tv)
                                          (Long_fromNumber (counter tv)))))
              (mkCommandOptions (connectTimeoutMS o + heartbeatFrequencyMS o)
                                true)]
      /\ inflight (checkServer w) = inflight w ++ [PCommand (now w) true]
      /\ (Long_MIN <= counter tv <= Long_MAX ->
          log (checkServer w)
          = log w
            ++ [started;
                RunCommand c
                  (mkCommand true (Some (heartbeatFrequencyMS o)) (Some tv))
                  (mkCommandOptions
                     (connectTimeoutMS o + heartbeatFrequencyMS o) true)]))
  /\ (forall c,
        kConnection (monitor w) = Some c ->
        sd_topologyVersion (server w) = None ->
        log (checkServer w)
        = log w
          ++ [started;
              RunCommand c (mkCommand true None None)
                         (mkCommandOptions (connectTimeoutMS o) false)]
        /\ inflight (checkServer w) = inflight w ++ [PCommand (now w) false])
  /\ (kConnection (monitor w) = None ->
      log (checkServer w) = log w ++ [started; Connect]
      /\ inflight (checkServer w) = inflight w ++ [PConnect (now w)])
  /\ inflight (checkServer w) = inflight w ++ [round_of w]
  /\ (streaming (round_of w) = true <->
      kConnection (monitor w) <> None /\ sd_topologyVersion (server w) <> None)
  /\ (forall z, Long_fromNumber z = z <-> Long_MIN <= z <= Long_MAX).
Proof.
  intros o started. subst o started.
  split; [|split; [|split; [|split; [|split]]]].
  - intros c tv Hc Ht.
    assert (E : log (checkServer w)
                = log w
                  ++ [Emit (serverHeartbeatStarted (address (monitor w)));
                      RunCommand c
                        (mkCommand true
                           (Some (heartbeatFrequencyMS (options (monitor w))))
                           (Some (makeTopologyVersion tv)))
                        (mkCommandOptions
                           (connectTimeoutMS (options (monitor w))
                            + heartbeatFrequencyMS (options (monitor w)))
                           true)]
                /\ inflight (checkServer w)
                   = inflight w ++ [PCommand (now w) true]).
    { world w. destruct sd as [ty tv']. simpl in *. subst.
      norm_log. split; reflexivity. }
    destruct E as [El Ei]. split; [exact El|]. split; [exact Ei|].
    intro Hrange. rewrite El.
    now rewrite (makeTopologyVersion_fixes tv Hrange).
  - intros c Hc Ht. world w. destruct sd as [ty tv']. simpl in *. subst.
    norm_log. split; reflexivity.
  - intro Hc. world w. subst. norm_log. split; reflexivity.
  - world w. destruct sd as [ty [tv|]], kc; norm_log; reflexivity.
  - unfold round_of.
    destruct (kConnection (monitor w)), (sd_topologyVersion (server w));
      simpl; split; try discriminate; try (intros [? ?]; congruence).
    split; discriminate.
  - apply Long_fromNumber_fixes.
Qed.

Lemma scheduled_after_reschedule (ms : option Z) (w : World) :
  timer_ok w = true -> open (s_state (monitor w)) = true ->
  scheduled ms w (rescheduleMonitoring ms w).
Proof.
  intros Hok Hopen. unfold scheduled.
  rewrite rescheduleMonitoring_open by assumption. simpl.
  rewrite (timer_ok_without w Hok). repeat split.
Qed.

(** Scheduling from a world [x] that differs from [w] in what the
    scheduler does not read. *)
Lemma scheduled_from (ms : option Z) (x w : World) :
  timer_ok w = true -> open (s_state (monitor w)) = true ->
  timers x = timers w -> next_timer x = next_timer w -> now x = now w ->
  kMonitorId (monitor x) = kMonitorId (monitor w) ->
  s_state (monitor x) = s_state (monitor w) ->
  scheduled ms w (rescheduleMonitoring ms x).
Proof.
  intros Hok Hopen Ht Hn Hnow Hk Hs. unfold scheduled.
  rewrite rescheduleMonitoring_open by congruence. simpl.
  rewrite Hk, Ht, (timer_ok_without w Hok), Hn, Hnow. repeat split.
Qed.

Lemma callback_schedules (err : option Error) (isMaster : option IsMaster)
    (x w : World) :
  timer_ok w = true -> open (s_state (monitor w)) = true ->
  timers x = timers w -> next_timer x = next_timer w -> now x = now w ->
  kMonitorId (monitor x) = kMonitorId (monitor w) ->
  s_state (monitor x) = s_state (monitor w) ->
  server x = server w -> options (monitor x) = options (monitor w) ->
  let known :=
    match err with
    | Some _ => negb (is_unknown (sd_type (server w)))
    | None => false
    end in
  let streamed :=
    match isMaster with
    | Some (mkIsMaster (Some _)) => true
    | _ => false
    end in
  scheduled (if known || streamed then None
             else Some (heartbeatFrequencyMS (options (monitor w))))
            w (monitorServer_callback err isMaster x).
Proof.
  intros Hok Hopen Ht Hn Hnow Hk Hs Hsd Ho. cbv zeta.
  unfold monitorServer_callback. rewrite Hsd, Ho.
  destruct err, (sd_type (server w)), isMaster as [[[tv|]]|]; simpl;
    now apply scheduled_from.
Qed.

Lemma failureHandler_schedules (start : Z) (err : Error) (x w : World) :
  timer_ok w = true -> open (s_state (monitor w)) = true ->
  timers x = timers w -> next_timer x = next_timer w -> now x = now w ->
  kMonitorId (monitor x) = kMonitorId (monitor w) ->
  s_state (monitor x) = s_state (monitor w) ->
  server x = server w -> options (monitor x) = options (monitor w) ->
  scheduled (if is_unknown (sd_type (server w))
             then Some (heartbeatFrequencyMS (options (monitor w)))
             else None)
            w (failureHandler start err x).
Proof.
  intros Hok Hopen Ht Hn Hnow Hk Hs Hsd Ho.
  unfold failureHandler. cbv zeta.
  match goal with
  | |- scheduled _ _ (monitorServer_callback ?e ?i ?y) =>
      pose proof (callback_schedules e i y w Hok Hopen) as H
  end.
  cbv zeta in H. rewrite orb_false_r in H.
  destruct (is_unknown (sd_type (server w))); simpl in H; apply H;
    destruct (kConnection (monitor x)), (is_network err); assumption.
Qed.

(** A callback that finds the monitor Closing or Closed leaves the
    timers, the handle and the state as they are. *)
Lemma callback_unscheduled (err : option Error) (isMaster : option IsMaster)
    (x : World) :
  open (s_state (monitor x)) = false ->
  monitorServer_callback err isMaster x = x.
Proof.
  intro H. destruct (callback_is_reschedule err isMaster x) as [ms ->].
  now apply rescheduleMonitoring_closed.
Qed.

Lemma failureHandler_unscheduled (start : Z) (err : Error) (x : World) :
  open (s_state (monitor x)) = false ->
  timers (failureHandler start err x) = timers x
  /\ s_state (monitor (failureHandler start err x)) = s_state (monitor x)
  /\ kMonitorId (monitor (failureHandler start err x)) = kMonitorId (monitor x).
Proof.
  intro H. unfold failureHandler. cbv zeta.
  rewrite callback_unscheduled
    by (destruct (kConnection (monitor x)), (is_network err); exact H).
  destruct (kConnection (monitor x)), (is_network err); repeat split.
Qed.

(** C2 (amended).  When an outstanding round ends, that is when the
    event loop calls its callback, on a monitor that is Idle or
    Monitoring: if the round failed and the server's last known type is
    not Unknown, the next round is scheduled with no delay argument, that
    is at once; if it failed and the type is Unknown, after
    [heartbeatFrequencyMS]; if it succeeded, was not a streaming round
    and the reply has a topology version, at once; if it succeeded, was
    not a streaming round and the reply has none, after
    [heartbeatFrequencyMS].  The reply of a streaming round is no
    terminal outcome: nothing is scheduled, the round stays outstanding.
    When the monitor is Closing or Closed the end of a round schedules
    nothing.  The monitor is any one that keeps the timer discipline
    [timer_ok], as every constructed monitor does. *)
Theorem next_round_delay (w : World) (Hok : timer_ok w = true)
    (i : nat) (p : Pending) (Hp : nth_error (inflight w) i = Some p) :
  let hb := heartbeatFrequencyMS (options (monitor w)) in
  let unscheduled w' :=
    timers w' = timers w
    /\ s_state (monitor w') = s_state (monitor w)
    /\ kMonitorId (monitor w') = kMonitorId (monitor w) in
  (open (s_state (monitor w)) = true ->
   (forall err, sd_type (server w) <> Unknown ->
                scheduled None w (step (fails i p err) w))
   /\ (forall err, sd_type (server w) = Unknown ->
                   scheduled (Some hb) w (step (fails i p err) w))
   /\ (forall conn tv, streaming p = false ->
          scheduled None w
                    (step (replies i p conn (mkIsMaster (Some tv))) w))
   /\ (forall conn, streaming p = false ->
          scheduled (Some hb) w (step (replies i p conn (mkIsMaster None)) w)))
  /\ (forall conn reply, streaming p = true ->
        let w' := step (replies i p conn reply) w in
        unscheduled w'
        /\ inflight w' = PCommand (now w) true :: remove_nth i (inflight w))
  /\ (open (s_state (monitor w)) = false ->
      (forall err, unscheduled (step (fails i p err) w))
      /\ (forall conn reply, unscheduled (step (replies i p conn reply) w))).
Proof.
  intros hb unscheduled. subst hb unscheduled. cbv beta.
  split; [|split].
  - intro Hopen. split; [|split; [|split]].
    + intros err Ht.
      assert (Hu : is_unknown (sd_type (server w)) = false)
        by (destruct (sd_type (server w)); simpl; congruence).
      destruct p as [start|start aw]; unfold fails; cbn [step]; rewrite Hp.
      * unfold connect_callback.
        match goal with
        | |- scheduled _ _ (failureHandler _ _ ?y) =>
            pose proof (failureHandler_schedules start err y w Hok Hopen) as H
        end.
        rewrite Hu in H. apply H; destruct (is_network err); reflexivity.
      * cbn [command_callback].
        pose proof (failureHandler_schedules start err
                      (with_inflight (remove_nth i) w) w Hok Hopen) as H.
        rewrite Hu in H. apply H; reflexivity.
    + intros err Ht.
      assert (Hu : is_unknown (sd_type (server w)) = true)
        by (now rewrite Ht).
      destruct p as [start|start aw]; unfold fails; cbn [step]; rewrite Hp.
      * unfold connect_callback.
        match goal with
        | |- scheduled _ _ (failureHandler _ _ ?y) =>
            pose proof (failureHandler_schedules start err y w Hok Hopen) as H
        end.
        rewrite Hu in H. apply H; destruct (is_network err); reflexivity.
      * cbn [command_callback].
        pose proof (failureHandler_schedules start err
                      (with_inflight (remove_nth i) w) w Hok Hopen) as H.
        rewrite Hu in H. apply H; reflexivity.
    + intros conn tv Hst.
      destruct p as [start|start aw]; unfold replies; cbn [step]; rewrite Hp.
      * unfold connect_callback.
        match goal with
        | |- scheduled _ _ (monitorServer_callback ?e ?r ?y) =>
            apply (callback_schedules e r y w Hok Hopen)
        end; reflexivity.
      * simpl in Hst. subst aw. cbn [command_callback fst snd].
        match goal with
        | |- scheduled _ _ (monitorServer_callback ?e ?r ?y) =>
            apply (callback_schedules e r y w Hok Hopen)
        end; reflexivity.
    + intros conn Hst.
      destruct p as [start|start aw]; unfold replies; cbn [step]; rewrite Hp.
      * unfold connect_callback.
        match goal with
        | |- scheduled _ _ (monitorServer_callback ?e ?r ?y) =>
            apply (callback_schedules e r y w Hok Hopen)
        end; reflexivity.
      * simpl in Hst. subst aw. cbn [command_callback fst snd].
        match goal with
        | |- scheduled _ _ (monitorServer_callback ?e ?r ?y) =>
            apply (callback_schedules e r y w Hok Hopen)
        end; reflexivity.
  - intros conn reply Hst. cbv zeta.
    destruct p as [start|start [|]]; try discriminate.
    unfold replies; cbn [step]; rewrite Hp. simpl. repeat split.
  - intro Hc. split.
    + intro err.
      destruct p as [start|start aw]; unfold fails; cbn [step]; rewrite Hp.
      * unfold connect_callback.
        match goal with
        | |- context [failureHandler _ _ ?y] =>
            destruct (failureHandler_unscheduled start err y) as (-> & -> & ->)
        end; destruct (is_network err); try exact Hc; repeat split.
      * cbn [command_callback].
        destruct (failureHandler_unscheduled start err
                    (with_inflight (remove_nth i) w) Hc) as (-> & -> & ->).
        repeat split.
    + intros conn reply.
      destruct p as [start|start aw]; unfold replies; cbn [step]; rewrite Hp.
      * unfold connect_callback. rewrite callback_unscheduled by exact Hc.
        repeat split.
      * destruct aw; cbn [command_callback].
        -- repeat split.
        -- rewrite callback_unscheduled by exact Hc. repeat split.
Qed.

Lemma reachable_run (acts : list Action) (w : World) :
  reachable w -> reachable (run acts w).
Proof.
  revert w. induction acts as [|a acts IH]; intros w H; simpl.
  - exact H.
  - apply IH. now apply reachable_step.
Qed.

Lemma public_step_rounds (a : Action) (w : World) :
  public a = true ->
  inflight (step a w) = inflight w
  \/ (s_state (monitor w) <> STATE_MONITORING
      /\ s_state (monitor (step a w)) = STATE_MONITORING
      /\ inflight (step a w) = inflight w ++ [round_of w]).
Proof.
  intro Hp. destruct a; try discriminate; simpl.
  - unfold connect. destruct (s_state (monitor w)) eqn:E; auto.
    right. rewrite monitorServer_eq by (now rewrite E). simpl.
    repeat split. congruence.
  - destruct (s_state (monitor w)) eqn:E;
      try (left; rewrite requestCheck_not_idle by congruence; reflexivity).
    rewrite requestCheck_idle by assumption.
    destruct (_ && _).
    + left. rewrite rescheduleMonitoring_open
        by (rewrite clearTimeout_eq; simpl; now rewrite E).
      rewrite clearTimeout_eq. reflexivity.
    + right. rewrite monitorServer_eq
        by (rewrite clearTimeout_eq; simpl; now rewrite E).
      rewrite clearTimeout_eq. simpl. repeat split. congruence.
  - left. destruct (open (s_state (monitor w))) eqn:E.
    + now rewrite reset_open.
    + now rewrite reset_closed.
  - left. destruct (open (s_state (monitor w))) eqn:E.
    + now rewrite close_open.
    + now rewrite close_closed.
Qed.

(** *** Rounds when nobody resets or closes *)

Lemma callback_state (err : option Error) (isMaster : option IsMaster)
    (w : World) :
  open (s_state (monitor w)) = true ->
  s_state (monitor (monitorServer_callback err isMaster w)) = STATE_IDLE
  /\ inflight (monitorServer_callback err isMaster w) = inflight w.
Proof.
  intro H. destruct (callback_is_reschedule err isMaster w) as [ms ->].
  now rewrite rescheduleMonitoring_open.
Qed.

Lemma failureHandler_state (start : Z) (err : Error) (w : World) :
  open (s_state (monitor w)) = true ->
  s_state (monitor (failureHandler start err w)) = STATE_IDLE
  /\ inflight (failureHandler start err w) = inflight w.
Proof.
  intro H. unfold failureHandler. cbv zeta.
  match goal with
  | |- context [monitorServer_callback ?e ?i ?x] =>
      assert (Hx : open (s_state (monitor x)) = true
                   /\ inflight x = inflight w)
        by (destruct (kConnection (monitor w)), (is_network err);
            split; solve [exact H | reflexivity]);
      destruct (callback_state e i x (proj1 Hx)) as [-> ->]
  end.
  split; [reflexivity|apply Hx].
Qed.

Lemma round_ok_idle (w : World) :
  s_state (monitor w) = STATE_IDLE -> inflight w = [] -> round_ok w = true.
Proof. unfold round_ok. now intros -> ->. Qed.

Lemma round_ok_requestCheck (w : World) :
  round_ok w = true -> round_ok (requestCheck w) = true.
Proof.
  intro H. destruct (s_state (monitor w)) eqn:E;
    try (rewrite requestCheck_not_idle by congruence; assumption).
  assert (Hi : inflight w = []).
  { unfold round_ok in H. rewrite E in H. now destruct (inflight w). }
  rewrite requestCheck_idle by assumption.
  destruct (_ && _).
  - rewrite rescheduleMonitoring_open
      by (rewrite clearTimeout_eq; simpl; now rewrite E).
    rewrite clearTimeout_eq. unfold round_ok. simpl. now rewrite Hi.
  - rewrite monitorServer_eq
      by (rewrite clearTimeout_eq; simpl; now rewrite E).
    rewrite clearTimeout_eq. unfold round_ok. simpl. now rewrite Hi.
Qed.

Lemma round_ok_monitoring (w : World) :
  round_ok w = true ->
  forall i p, nth_error (inflight w) i = Some p ->
  s_state (monitor w) = STATE_MONITORING /\ inflight w = [p] /\ i = O.
Proof.
  unfold round_ok. intros H i p Hn.
  destruct (inflight w) as [|q [|q' l]] eqn:Ei.
  - now destruct i.
  - destruct i as [|i]; [|now destruct i].
    simpl in Hn. inversion Hn; subst.
    destruct (s_state (monitor w)); try discriminate. auto.
  - destruct (s_state (monitor w)); discriminate.
Qed.

Lemma round_ok_step (a : Action) (w : World) :
  calm a = true -> round_ok w = true -> round_ok (step a w) = true.
Proof.
  intros Hc H. destruct a; try discriminate; simpl.
  - unfold connect. destruct (s_state (monitor w)) eqn:E; try assumption.
    rewrite monitorServer_eq by (now rewrite E).
    unfold round_ok in *. rewrite E in H. simpl.
    now destruct (inflight w).
  - now apply round_ok_requestCheck.
  - destruct (find (id_is id) (timers w)) as [t|]; [|exact H].
    destruct (due w t); [|exact H].
    destruct (t_cb t); simpl; apply round_ok_requestCheck; exact H.
  - destruct (nth_error (inflight w) i) as [[start|start aw]|] eqn:En;
      try exact H.
    destruct (round_ok_monitoring w H _ _ En) as (Hs & Hi & ->).
    apply round_ok_idle; destruct r as [err|[conn reply]]; simpl.
    + apply failureHandler_state. destruct (is_network err); simpl;
        now rewrite Hs.
    + apply callback_state. simpl. now rewrite Hs.
    + etransitivity; [apply failureHandler_state|];
        [destruct (is_network err); simpl; now rewrite Hs|].
      destruct (is_network err); simpl; now rewrite Hi.
    + etransitivity; [apply callback_state; simpl; now rewrite Hs|].
      simpl. now rewrite Hi.
  - destruct (nth_error (inflight w) i) as [[start|start aw]|] eqn:En;
      try exact H.
    destruct (round_ok_monitoring w H _ _ En) as (Hs & Hi & ->).
    destruct r as [err|reply]; simpl.
    + apply round_ok_idle.
      * apply failureHandler_state. simpl. now rewrite Hs.
      * etransitivity; [apply failureHandler_state; simpl; now rewrite Hs|].
        simpl. now rewrite Hi.
    + destruct aw; simpl.
      * unfold round_ok. simpl. rewrite Hs, Hi. reflexivity.
      * apply round_ok_idle.
        -- apply callback_state. simpl. now rewrite Hs.
        -- etransitivity; [apply callback_state; simpl; now rewrite Hs|].
           simpl. now rewrite Hi.
  - destruct (ticks w); exact H.
  - exact H.
  - exact H.
Qed.

Lemma round_ok_run (acts : list Action) (w : World) :
  forallb calm acts = true -> round_ok w = true ->
  round_ok (run acts w) = true.
Proof.
  revert w. induction acts as [|a acts IH]; intros w Hc H; simpl.
  - exact H.
  - simpl in Hc. apply andb_true_iff in Hc. destruct Hc as [Ha Hc].
    apply IH; [exact Hc|]. now apply round_ok_step.
Qed.

Lemma round_ok_inflight (w : World) :
  round_ok w = true -> (List.length (inflight w) <= 1)%nat.
Proof.
  unfold round_ok.
  destruct (s_state (monitor w)), (inflight w) as [|p [|q l]];
    simpl; try discriminate; lia.
Qed.

(** C6 (amended).  For every monitor, after every sequence of calls and
    event-loop steps, at most one timer is armed, and it is the one whose
    handle [kMonitorId] holds: whatever arms a timer clears that handle
    first.  A public call starts a round only when the state is not
    Monitoring, and leaves the state Monitoring: while a round has the
    monitor in state Monitoring no call starts another.  Any number of
    [requestCheck()] calls in a row leaves at most one timer armed.
    As long as neither [reset()] nor [close()] is called, at most one
    round is outstanding at any time; a round that [reset()] or
    [close()] interrupts is not waited for. *)
Theorem one_timer_at_a_time
    (addr : string) (description : ServerDescription) (o : Options) (t0 : Z)
    (acts : list Action) :
  let w := run acts (new_Monitor addr description o t0) in
  (List.length (timers w) <= 1)%nat
  /\ (forall t, In t (timers w) -> kMonitorId (monitor w) = Some (t_id t))
  /\ (forall a, public a = true ->
        inflight (step a w) = inflight w
        \/ (s_state (monitor w) <> STATE_MONITORING
            /\ s_state (monitor (step a w)) = STATE_MONITORING
            /\ inflight (step a w) = inflight w ++ [round_of w]))
  /\ (forall n,
        (List.length (timers (run (repeat ArequestCheck n) w)) <= 1)%nat)
  /\ (forallb calm acts = true -> (List.length (inflight w) <= 1)%nat).
Proof.
  intro w.
  assert (Hr : reachable w) by (exists addr, description, o, t0, acts; reflexivity).
  destruct (timer_ok_cases w (reachable_timer_ok w Hr)) as [H1 H2].
  split; [exact H1|]. split; [exact H2|].
  split; [intros a Ha; now apply public_step_rounds|].
  split.
  - intro n.
    apply timer_ok_cases, reachable_timer_ok, reachable_run, Hr.
  - intro Hc.
    apply round_ok_inflight, round_ok_run; [exact Hc|reflexivity].
Qed.

End MonitorRounds.

Lemma reachable_fresh (acts : list Mon.Action) :
  Mon.reachable (Mon.run acts Mon.fresh).
Proof.
  exists "db:27017", (Mon.mkDescription Mon.Unknown None),
         (Mon.makeOptions None None None None), 0, acts.
  reflexivity.
Defined.

(** C2, as the specification words it, fails on a failure of a known
    server: the server is a primary, the second round fails with a
    network error, and the next round is scheduled with no delay
    argument, not after the 10000 ms of [heartbeatFrequencyMS]. *)
Lemma next_round_delay_counterexample :
  let w' := Mon.step (Mon.AcommandDone 0
                        (inl (Mon.MongoNetworkError "connection closed")))
                     Mon.second_round in
  Mon.sd_type (Mon.server Mon.second_round) = Mon.RSPrimary
  /\ Mon.inflight Mon.second_round = [Mon.PCommand 10000 false]
  /\ Mon.heartbeatFrequencyMS (Mon.options (Mon.monitor Mon.second_round))
     = 10000
  /\ Mon.timers w'
     = [Mon.mkTimer 1 Mon.ClearIdThenRequestCheck None 10000]
  /\ map Mon.t_ms (Mon.timers w') <> [Some 10000].
Proof. repeat split. discriminate. Qed.

Lemma next_round_delay_witness :
  let err := Mon.MongoNetworkError "connection closed" in
  Mon.timer_ok Mon.second_round = true
  /\ nth_error (Mon.inflight Mon.second_round) 0
     = Some (Mon.PCommand 10000 false)
  /\ Mon.open (Mon.s_state (Mon.monitor Mon.second_round)) = true
  /\ Mon.sd_type (Mon.server Mon.second_round) <> Mon.Unknown
  /\ Mon.scheduled None Mon.second_round
       (Mon.step (Mon.AcommandDone 0 (inl err)) Mon.second_round)
  /\ Mon.scheduled None Mon.second_round
       (Mon.step (Mon.AcommandDone 0 (inr (Mon.mkIsMaster (Some Mon.tv1))))
                 Mon.second_round)
  /\ Mon.scheduled (Some 10000) Mon.second_round
       (Mon.step (Mon.AcommandDone 0 (inr (Mon.mkIsMaster None)))
                 Mon.second_round).
Proof.
  intro err.
  split; [reflexivity|]. split; [reflexivity|]. split; [reflexivity|].
  split; [discriminate|].
  destruct (proj1 (next_round_delay Mon.second_round eq_refl 0%nat
                     (Mon.PCommand 10000 false) eq_refl) eq_refl)
    as (Hf & _ & Hs & Hn).
  split; [apply (Hf err); discriminate|].
  split; [apply (Hs 0%nat Mon.tv1 eq_refl)|apply (Hn 0%nat eq_refl)].
Defined.

(** C4, as the specification words it, fails when [connect] fails with
    an error that is not a network error: [resetConnectionPool] is
    emitted all the same. *)
Lemma round_failure_events_counterexample :
  let err := Mon.MongoError "handshake refused" in
  let w := Mon.run [Mon.Aconnect] Mon.fresh in
  let w' := Mon.step (Mon.AconnectDone 0 (inl err)) w in
  Mon.is_network err = false
  /\ Mon.events (Mon.log w')
     = [Mon.serverHeartbeatStarted "db:27017";
        Mon.resetConnectionPool;
        Mon.serverHeartbeatFailed 0 err "db:27017";
        Mon.resetServer err]
  /\ ~ (In Mon.resetConnectionPool (Mon.events (Mon.log w'))
        <-> Mon.is_network err = true).
Proof.
  repeat split.
  intros [H _]. discriminate H. vm_compute. auto.
Qed.

Lemma checkServer_mode_witness :
  Mon.kConnection (Mon.monitor Mon.streaming_ready) = Some 7%nat
  /\ Mon.sd_topologyVersion (Mon.server Mon.streaming_ready) = Some Mon.tv1
  /\ Mon.Long_MIN <= Mon.counter Mon.tv1 <= Mon.Long_MAX
  /\ Mon.log (Mon.checkServer Mon.streaming_ready)
     = Mon.log Mon.streaming_ready
       ++ [Mon.Emit (Mon.serverHeartbeatStarted "db:27017");
           Mon.RunCommand 7%nat
             (Mon.mkCommand true (Some 10000) (Some Mon.tv1))
             (Mon.mkCommandOptions 20000 true)]
  /\ Mon.inflight (Mon.checkServer Mon.streaming_ready)
     = [Mon.PCommand 0 true].
Proof.
  split; [reflexivity|]. split; [reflexivity|].
  assert (R : Mon.Long_MIN <= Mon.counter Mon.tv1 <= Mon.Long_MAX)
    by (split; discriminate).
  split; [exact R|].
  destruct (proj1 (checkServer_mode Mon.streaming_ready) 7%nat Mon.tv1
              eq_refl eq_refl) as (_ & Hi & Hl).
  split; [exact (Hl R)|exact Hi].
Defined.

(** C6, as the specification words it, fails for rounds: [reset()]
    during the second round leaves its callback outstanding and the
    state Idle, and a [requestCheck()] made at once, the heartbeat
    interval having elapsed since the last check, starts a third round
    next to it.  When the callback of the interrupted round is then
    called with an error, the monitor goes Idle while the third round is
    still outstanding. *)
Lemma one_timer_at_a_time_counterexample :
  Mon.reachable Mon.overlapping
  /\ Mon.inflight Mon.second_round = [Mon.PCommand 10000 false]
  /\ Mon.inflight Mon.overlapping
     = [Mon.PCommand 10000 false; Mon.PCommand 10000 false]
  /\ ~ (List.length (Mon.inflight Mon.overlapping) <= 1)%nat
  /\ Mon.s_state (Mon.monitor Mon.stale_failure) = Mon.STATE_IDLE
  /\ Mon.inflight Mon.stale_failure = [Mon.PCommand 10000 false].
Proof.
  split; [unfold Mon.overlapping, Mon.second_round;
          apply reachable_run, reachable_fresh|].
  split; [reflexivity|]. split; [reflexivity|].
  split; [vm_compute; lia|]. split; reflexivity.
Qed.

Lemma one_timer_at_a_time_witness :
  let acts := [Mon.Aconnect;
               Mon.AconnectDone 0 (inr (7%nat, Mon.mkIsMaster (Some Mon.tv1)));
               Mon.Aadvance 1] in
  Mon.public Mon.ArequestCheck = true
  /\ forallb Mon.calm acts = true
  /\ (List.length (Mon.timers Mon.about_to_fire) <= 1)%nat
  /\ Mon.inflight (Mon.step Mon.ArequestCheck Mon.about_to_fire)
     = Mon.inflight Mon.about_to_fire
  /\ (List.length
        (Mon.timers (Mon.run (repeat Mon.ArequestCheck 3) Mon.about_to_fire))
      <= 1)%nat
  /\ (List.length (Mon.inflight Mon.about_to_fire) <= 1)%nat.
Proof.
  intro acts.
  destruct (one_timer_at_a_time "db:27017" (Mon.mkDescription Mon.Unknown None)
              (Mon.makeOptions None None None None) 0 acts)
    as (H1 & _ & H3 & H4 & H5).
  split; [reflexivity|]. split; [reflexivity|]. split; [exact H1|].
  split; [|split; [exact (H4 3%nat)|exact (H5 eq_refl)]].
  destruct (H3 Mon.ArequestCheck eq_refl) as [H|(_ & H & _)];
    [exact H | discriminate H].
Defined.

(* ================================================================== *)
(** * Read preference: what construction guarantees, and the methods *)
(* ================================================================== *)

Section ReadPreferenceMethods.
Import JS RP.

Variable ToNumber_ext : JsVal -> JsNum.

Lemma check_primary_Returns (this rp : Instance) :
  check_primary this = Returns rp ->
  rp = this
  /\ (mode this = JStr PRIMARY ->
      nonempty_array (tags this) = false
      /\ truthy (maxStalenessSeconds this) = false
      /\ truthy (hedge this) = false).
Proof.
  unfold check_primary.
  destruct (strict_eq (mode this) (JStr PRIMARY)) eqn:E.
  - destruct (nonempty_array (tags this)); [discriminate|].
    destruct (truthy (maxStalenessSeconds this)); [discriminate|].
    destruct (truthy (hedge this)); [discriminate|].
    intro H; inversion H; auto.
  - intro H; inversion H; subst. split; [reflexivity|].
    intro Hm. rewrite Hm in E. vm_compute in E. discriminate E.
Qed.

Lemma shuffle_args_tags (tags0 options0 t o : JsVal) :
  shuffle_args tags0 options0 = inl (t, o) ->
  truthy t = true -> isArray t = true.
Proof.
  unfold shuffle_args.
  destruct (is_undefined options0 && typeof_object tags0 && negb (isArray tags0)).
  - intro H; inversion H; subst. discriminate.
  - destruct (truthy tags0 && negb (isArray tags0)) eqn:E; [discriminate|].
    intro H; inversion H; subst. intro Ht. rewrite Ht in E. simpl in E.
    now destruct (isArray t).
Qed.

Lemma Returns_well_formed (m t o : JsVal) (rp : Instance) :
  ReadPreference ToNumber_ext m t o = Returns rp ->
  mode rp = m /\ well_formed ToNumber_ext rp.
Proof.
  unfold ReadPreference.
  destruct (isValid m) eqn:V; simpl; [|discriminate].
  destruct (shuffle_args t o) as [[t' o']|e] eqn:S; [|discriminate].
  pose proof (shuffle_args_tags _ _ _ _ S) as Ht.
  destruct (nullish (get (js_or o' (JObj [])) "maxStalenessSeconds")) eqn:N;
    simpl.
  - intro H. apply check_primary_Returns in H. destruct H as [-> Hp].
    split; [reflexivity|]. unfold well_formed; simpl. auto 6.
  - destruct (le_zero ToNumber_ext _) eqn:L; [discriminate|].
    intro H. apply check_primary_Returns in H. destruct H as [-> Hp].
    split; [reflexivity|]. unfold well_formed; simpl. auto 8.
Qed.

Lemma strict_eq_valid (m1 m2 : JsVal) :
  isValid m1 = true -> isValid m2 = true ->
  (strict_eq m1 m2 = true <-> m1 = m2).
Proof.
  intros V1 V2. apply isValid_modes in V1, V2.
  destruct V1 as [E|[E|[E|[E|[E|E]]]]]; subst m1;
    destruct V2 as [E|[E|[E|[E|[E|E]]]]]; subst m2;
    split; intro H; solve [reflexivity | vm_compute in H; discriminate H].
Qed.

(** X1.  An instance the constructor returns carries the mode it was
    given, and that mode is one of the five names or [null]; its tags are
    an array or a falsy value; [maxStalenessSeconds] and [minWireVersion]
    are either both unset, or the staleness is a value that is not [<= 0]
    and [minWireVersion] is 5; and with mode [primary] it has no
    non-empty tag array, no truthy staleness and no truthy hedge. *)
Theorem constructed_instance_well_formed (m t o : JsVal) (rp : Instance)
    (H : ReadPreference ToNumber_ext m t o = Returns rp) :
  mode rp = m
  /\ isValid (mode rp) = true
  /\ (truthy (tags rp) = true -> isArray (tags rp) = true)
  /\ ((maxStalenessSeconds rp = JUndefined /\ minWireVersion rp = JUndefined)
      \/ (nullish (maxStalenessSeconds rp) = false
          /\ le_zero ToNumber_ext (maxStalenessSeconds rp) = false
          /\ minWireVersion rp = JNum (Fin 5)))
  /\ (mode rp = JStr "primary" ->
      nonempty_array (tags rp) = false
      /\ truthy (maxStalenessSeconds rp) = false
      /\ truthy (hedge rp) = false).
Proof.
  destruct (Returns_well_formed m t o rp H) as (Hm & V & Ht & Hs & Hp).
  split; [exact Hm|]. split; [exact V|]. split; [exact Ht|].
  split; [exact Hs|exact Hp].
Qed.

(** X2.  With a numeric [maxStalenessSeconds = n] and no tags: [n <= 0]
    is refused with "maxStalenessSeconds must be a positive integer" for
    every accepted mode, [primary] included, since that check comes
    first; [n > 0] is refused for mode [primary] and accepted for every
    other mode, whatever the positive value, with [minWireVersion] 5. *)
Theorem staleness_number (m : JsVal) (n : Z) (V : isValid m = true) :
  let r := ReadPreference ToNumber_ext m JUndefined
             (JObj [("maxStalenessSeconds", JNum (Fin n))]) in
  (n <= 0 -> r = Throws StalenessNotPositive)
  /\ (0 < n -> m = JStr "primary" -> r = Throws PrimaryWithStaleness)
  /\ (0 < n -> m <> JStr "primary" ->
      r = Returns (mkInstance m JUndefined JUndefined (JNum (Fin n))
                              (JNum (Fin 5)))).
Proof.
  intro r. subst r. unfold ReadPreference. rewrite V.
  cbn [negb shuffle_args is_undefined typeof_object andb truthy isArray
       js_and js_or get nullish].
  change (lookup "maxStalenessSeconds" [("maxStalenessSeconds", JNum (Fin n))])
    with (JNum (Fin n)).
  change (lookup "hedge" [("maxStalenessSeconds", JNum (Fin n))])
    with JUndefined.
  cbn [nullish negb le_zero ToNumber].
  split; [|split].
  - intro Hn. replace (n <=? 0) with true by (symmetry; apply Z.leb_le; lia).
    reflexivity.
  - intros Hn ->. replace (n <=? 0) with false by (symmetry; apply Z.leb_gt; lia).
    unfold check_primary. cbn [mode tags maxStalenessSeconds truthy nonempty_array].
    replace (n =? 0) with false by (symmetry; apply Z.eqb_neq; lia).
    reflexivity.
  - intros Hn Hm. replace (n <=? 0) with false by (symmetry; apply Z.leb_gt; lia).
    unfold check_primary. cbn [mode].
    destruct (strict_eq m (JStr PRIMARY)) eqn:E; [|reflexivity].
    exfalso. apply Hm.
    apply (proj1 (strict_eq_valid m (JStr PRIMARY) V eq_refl) E).
Qed.

(** X3.  [slaveOk()] of an instance the constructor returned is false
    exactly for mode [primary] and for mode [null]. *)
Theorem slaveOk_false_iff (m t o : JsVal) (rp : Instance)
    (H : ReadPreference ToNumber_ext m t o = Returns rp) :
  slaveOk rp = false <-> mode rp = JStr "primary" \/ mode rp = JNull.
Proof.
  destruct (Returns_well_formed m t o rp H) as (_ & V & _).
  unfold slaveOk. apply isValid_modes in V.
  destruct V as [E|[E|[E|[E|[E|E]]]]]; rewrite E; split;
    solve [ intros _; auto
          | intro Hf; vm_compute in Hf; discriminate Hf
          | intros [Hf|Hf]; discriminate Hf ].
Qed.

(** X4.  For an instance the constructor returned, the method
    [isValid(x)] is true whenever [x] is not a string (in particular when
    it is left out): the instance's own mode has been validated.  With a
    string it is the static [isValid] of that string, and then [null]
    cannot be asked for. *)
Theorem proto_isValid_constructed (m t o : JsVal) (rp : Instance)
    (H : ReadPreference ToNumber_ext m t o = Returns rp) :
  (forall x, is_string x = false -> proto_isValid rp x = true)
  /\ (forall s, proto_isValid rp (JStr s) = true <->
                 In s ["primary"; "primaryPreferred"; "secondary";
                       "secondaryPreferred"; "nearest"]).
Proof.
  destruct (Returns_well_formed m t o rp H) as (_ & V & _).
  split.
  - intros x Hx. unfold proto_isValid. now rewrite Hx.
  - intro s. unfold proto_isValid. cbn [is_string].
    rewrite isValid_modes. simpl. split.
    + intros [E|[E|[E|[E|[E|E]]]]]; inversion E; auto 6.
    + intros [E|[E|[E|[E|[E|[]]]]]]; subst s; auto 6.
Qed.

(** X5.  [equals] is an equivalence on the instances the constructor
    returns: every instance equals itself, and equality is symmetric and
    transitive. *)
Theorem equals_equivalence
    (m1 t1 o1 m2 t2 o2 m3 t3 o3 : JsVal) (a b c : Instance)
    (Ha : ReadPreference ToNumber_ext m1 t1 o1 = Returns a)
    (Hb : ReadPreference ToNumber_ext m2 t2 o2 = Returns b)
    (Hc : ReadPreference ToNumber_ext m3 t3 o3 = Returns c) :
  equals a a = true
  /\ equals a b = equals b a
  /\ (equals a b = true -> equals b c = true -> equals a c = true).
Proof.
  destruct (Returns_well_formed _ _ _ _ Ha) as (_ & Va & _).
  destruct (Returns_well_formed _ _ _ _ Hb) as (_ & Vb & _).
  destruct (Returns_well_formed _ _ _ _ Hc) as (_ & Vc & _).
  unfold equals. split; [|split].
  - now apply strict_eq_valid.
  - destruct (strict_eq (mode b) (mode a)) eqn:E1;
      destruct (strict_eq (mode a) (mode b)) eqn:E2; try reflexivity.
    + apply strict_eq_valid in E1; [|assumption|assumption].
      rewrite E1 in E2. rewrite (proj2 (strict_eq_valid _ _ Va Va) eq_refl) in E2.
      discriminate.
    + apply strict_eq_valid in E2; [|assumption|assumption].
      rewrite E2 in E1. rewrite (proj2 (strict_eq_valid _ _ Vb Vb) eq_refl) in E1.
      discriminate.
  - intros E1 E2.
    apply strict_eq_valid in E1; [|assumption|assumption].
    apply strict_eq_valid in E2; [|assumption|assumption].
    apply strict_eq_valid; congruence.
Qed.

(** X6.  [new ReadPreference(mode)] with the mode alone succeeds exactly
    for the accepted modes, and the instance has no tags, no hedge, no
    staleness and no minimum wire version: the five predefined instances
    of the module are built without error. *)
Theorem mode_only_construction (m : JsVal) :
  ReadPreference ToNumber_ext m JUndefined JUndefined
  = if isValid m
    then Returns (mkInstance m JUndefined JUndefined JUndefined JUndefined)
    else Throws (InvalidMode m).
Proof.
  unfold ReadPreference. destruct (isValid m); [|reflexivity].
  cbn [negb shuffle_args is_undefined typeof_object andb truthy isArray
       js_and js_or get nullish lookup].
  unfold check_primary. cbn [mode tags maxStalenessSeconds hedge truthy
                             nonempty_array].
  now destruct (strict_eq m (JStr PRIMARY)).
Qed.

End ReadPreferenceMethods.

Section ReadPreferenceDocuments.
Import JS RP.

Variable ToNumber_ext : JsVal -> JsNum.

Lemma get_toJSON (rp : Instance) :
  get (toJSON rp) "mode" = mode rp
  /\ get (toJSON rp) "tags"
     = (if isArray (tags rp) then tags rp else JUndefined)
  /\ get (toJSON rp) "maxStalenessSeconds"
     = (if truthy (maxStalenessSeconds rp) then maxStalenessSeconds rp
        else JUndefined).
Proof.
  unfold toJSON.
  destruct (isArray (tags rp)), (truthy (maxStalenessSeconds rp)),
    (truthy (hedge rp)); repeat split.
Qed.

Lemma valid_mode_string (m : JsVal) :
  isValid m = true -> m <> JNull -> truthy m = true /\ is_string m = true.
Proof.
  intros V N. apply isValid_modes in V.
  destruct V as [E|[E|[E|[E|[E|E]]]]]; subst m; try (split; reflexivity).
  congruence.
Qed.

Lemma isArray_truthy (v : JsVal) : isArray v = true -> truthy v = true.
Proof. destruct v; simpl; congruence. Qed.

Lemma check_primary_ok (this : Instance) :
  (mode this = JStr PRIMARY ->
   nonempty_array (tags this) = false
   /\ truthy (maxStalenessSeconds this) = false
   /\ truthy (hedge this) = false) ->
  isValid (mode this) = true ->
  check_primary this = Returns this.
Proof.
  intros Hp V. unfold check_primary.
  destruct (strict_eq (mode this) (JStr PRIMARY)) eqn:E; [|reflexivity].
  apply (strict_eq_valid (mode this) (JStr PRIMARY) V eq_refl) in E.
  destruct (Hp E) as (-> & -> & ->). reflexivity.
Qed.

(** X7.  Serialising an instance the constructor returned (mode not
    [null]) with [toJSON] and reading the document back with
    [fromOptions], the instance's hedge being passed as [options.hedge],
    constructs an instance with the same mode and hedge, the tags when
    they are an array and the staleness when it is truthy; a non-array
    tags value and a falsy staleness are dropped.  So the round trip
    gives the instance back when its tags are an array or undefined and
    its staleness is truthy or unset.  [options.readPreferenceTags] plays
    no part. *)
Theorem toJSON_fromOptions (m t o : JsVal) (rp : Instance) (rt : JsVal)
    (H : ReadPreference ToNumber_ext m t o = Returns rp)
    (Hmode : mode rp <> JNull) :
  fromOptions ToNumber_ext (Value (toJSON rp)) rt (hedge rp)
  = Constructs
      (Returns
         (mkInstance (mode rp)
            (if isArray (tags rp) then tags rp else JUndefined)
            (hedge rp)
            (if truthy (maxStalenessSeconds rp) then maxStalenessSeconds rp
             else JUndefined)
            (if truthy (maxStalenessSeconds rp) then JNum (Fin 5)
             else JUndefined)))
  /\ (isArray (tags rp) = true \/ tags rp = JUndefined ->
      truthy (maxStalenessSeconds rp) = true
      \/ maxStalenessSeconds rp = JUndefined ->
      fromOptions ToNumber_ext (Value (toJSON rp)) rt (hedge rp)
      = Constructs (Returns rp)).
Proof.
  destruct (Returns_well_formed ToNumber_ext m t o rp H)
    as (_ & V & Ht & Hs & Hp).
  destruct (valid_mode_string _ V Hmode) as [Tm Sm].
  destruct (get_toJSON rp) as (Gm & Gt & Gs).
  assert (Main :
    fromOptions ToNumber_ext (Value (toJSON rp)) rt (hedge rp)
    = Constructs
        (Returns
           (mkInstance (mode rp)
              (if isArray (tags rp) then tags rp else JUndefined)
              (hedge rp)
              (if truthy (maxStalenessSeconds rp) then maxStalenessSeconds rp
               else JUndefined)
              (if truthy (maxStalenessSeconds rp) then JNum (Fin 5)
               else JUndefined)))).
  { unfold fromOptions.
    change (nullish (toJSON rp)) with false.
    change (is_string (toJSON rp)) with false.
    change (typeof_object (toJSON rp)) with true.
    cbv iota. rewrite Gm, Gt, Gs.
    replace (js_or (mode rp) (get (toJSON rp) "preference")) with (mode rp)
      by (unfold js_or; now rewrite Tm).
    rewrite Tm, Sm. cbn [andb].
    f_equal. unfold ReadPreference. rewrite V. cbn [negb].
    assert (S : shuffle_args
                  (if isArray (tags rp) then tags rp else JUndefined)
                  (JObj [("maxStalenessSeconds",
                          if truthy (maxStalenessSeconds rp)
                          then maxStalenessSeconds rp else JUndefined);
                         ("hedge", hedge rp)])
                = inl (if isArray (tags rp) then tags rp else JUndefined,
                       JObj [("maxStalenessSeconds",
                              if truthy (maxStalenessSeconds rp)
                              then maxStalenessSeconds rp else JUndefined);
                             ("hedge", hedge rp)])).
    { unfold shuffle_args. cbn [is_undefined andb].
      destruct (isArray (tags rp)) eqn:A; [rewrite A|reflexivity].
      now rewrite andb_false_r. }
    rewrite S. clear S.
    cbn [js_and js_or truthy get].
    change (lookup "hedge" _) with (hedge rp).
    change (lookup "maxStalenessSeconds" _)
      with (if truthy (maxStalenessSeconds rp)
            then maxStalenessSeconds rp else JUndefined).
    destruct (truthy (maxStalenessSeconds rp)) eqn:Ts.
    - destruct Hs as [[Hu _]|(Hn & Hl & _)];
        [rewrite Hu in Ts; discriminate|].
      rewrite Hn, Hl. cbn [negb].
      apply check_primary_ok; cbn [mode tags maxStalenessSeconds hedge];
        [|exact V].
      intro E. destruct (Hp E) as (_ & F & _). congruence.
    - cbn [nullish negb].
      apply check_primary_ok; cbn [mode tags maxStalenessSeconds hedge];
        [|exact V].
      intro E. destruct (Hp E) as (Hn & _ & Hh).
      repeat split; [|exact Hh].
      destruct (isArray (tags rp)); [exact Hn|reflexivity]. }
  split; [exact Main|].
  intros Htags Hst. rewrite Main. do 2 f_equal.
  destruct rp as [md tg hd st mw]. cbn [mode tags hedge maxStalenessSeconds
                                        minWireVersion] in *.
  assert (Et : (if isArray tg then tg else JUndefined) = tg)
    by (destruct Htags as [-> | ->]; reflexivity).
  assert (Es : (if truthy st then st else JUndefined) = st)
    by (destruct Hst as [-> | ->]; reflexivity).
  assert (Ew : (if truthy st then JNum (Fin 5) else JUndefined) = mw).
  { destruct Hs as [[-> ->]|(Hn & _ & ->)]; [reflexivity|].
    destruct Hst as [-> | ->]; [reflexivity|discriminate]. }
  now rewrite Et, Es, Ew.
Qed.

(** X8.  [fromOptions] returns [null] exactly when
    [options.readPreference] is [null] or [undefined]; an instance of
    [ReadPreference] is returned as it is; a string is passed to the
    constructor with [options.readPreferenceTags] and without hedge; a
    plain object is passed to the constructor only when its [mode] (or
    else its [preference]) is a non-empty string, and then the tags come
    from the object and the hedge from [options.hedge], the object's own
    [hedge] being ignored; any other value, and an object without such a
    mode, is returned as it is, unvalidated.  Whatever instance it
    constructs satisfies the constructor's checks. *)
Theorem fromOptions_behaviour (rt h : JsVal) :
  (forall p, fromOptions ToNumber_ext p rt h = ReturnsNull <->
             exists v, p = Value v /\ nullish v = true)
  /\ (forall rp, fromOptions ToNumber_ext (Object rp) rt h
                 = ReturnsSame (Object rp))
  /\ (forall s, fromOptions ToNumber_ext (Value (JStr s)) rt h
                = Constructs (ReadPreference ToNumber_ext (JStr s) rt JUndefined))
  /\ (forall props rp,
        fromOptions ToNumber_ext (Value (JObj props)) rt h
        = Constructs (Returns rp) ->
        mode rp = js_or (lookup "mode" props) (lookup "preference" props)
        /\ is_string (mode rp) = true
        /\ tags rp = lookup "tags" props
        /\ hedge rp = h)
  /\ (forall v,
        nullish v = false -> is_string v = false ->
        typeof_object v = false
        \/ truthy (js_or (get v "mode") (get v "preference"))
           && is_string (js_or (get v "mode") (get v "preference")) = false ->
        fromOptions ToNumber_ext (Value v) rt h = ReturnsSame (Value v))
  /\ (forall p rp,
        fromOptions ToNumber_ext p rt h = Constructs (Returns rp) ->
        well_formed ToNumber_ext rp).
Proof.
  split; [|split; [|split; [|split; [|split]]]].
  - intro p. split.
    + destruct p as [v|rp]; [|discriminate]. unfold fromOptions.
      destruct (nullish v) eqn:N; [eauto|].
      destruct (is_string v); [discriminate|].
      destruct (typeof_object v); [|discriminate].
      destruct (_ && _); discriminate.
    + intros (v & -> & N). unfold fromOptions. now rewrite N.
  - reflexivity.
  - reflexivity.
  - intros props rp. unfold fromOptions.
    cbn [nullish is_string typeof_object get].
    destruct (truthy _ && is_string _) eqn:E; [|discriminate].
    intro H. inversion H as [H1]. clear H.
    apply andb_true_iff in E. destruct E as [_ Es].
    pose proof (Returns_well_formed ToNumber_ext _ _ _ _ H1) as [Em _].
    rewrite Em. split; [reflexivity|]. split; [exact Es|].
    revert H1. unfold ReadPreference.
    destruct (isValid _); cbn [negb]; [|discriminate].
    destruct (shuffle_args _ _) as [[t' o']|e] eqn:S; [|discriminate].
    unfold shuffle_args in S. cbn [is_undefined andb] in S.
    destruct (truthy (lookup "tags" props) && _); [discriminate|].
    inversion S; subst t' o'. clear S.
    cbn [js_and js_or truthy get].
    change (lookup "hedge" [("maxStalenessSeconds", _); ("hedge", h)]) with h.
    destruct (negb _); [destruct (le_zero _ _); [discriminate|]|];
      intro H1; apply check_primary_Returns in H1; destruct H1 as [-> _];
      split; reflexivity.
  - intros v N S Hc. unfold fromOptions. rewrite N, S.
    destruct Hc as [-> | Hc]; [reflexivity|].
    destruct (typeof_object v); [|reflexivity].
    cbv zeta. now rewrite Hc.
  - intros p rp. destruct p as [v|rp0]; [|discriminate].
    unfold fromOptions.
    destruct (nullish v); [discriminate|].
    destruct (is_string v);
      [intro H; inversion H as [H1];
       exact (proj2 (Returns_well_formed ToNumber_ext _ _ _ _ H1))|].
    destruct (typeof_object v); [|discriminate].
    cbv zeta. destruct (_ && _); [|discriminate].
    intro H; inversion H as [H1].
    exact (proj2 (Returns_well_formed ToNumber_ext _ _ _ _ H1)).
Qed.

End ReadPreferenceDocuments.

Lemma constructed_instance_well_formed_witness :
  RP.ReadPreference RP.no_coercion (JS.JStr "secondary") RP.east RP.stale90
  = RP.Returns RP.secondary_east
  /\ RP.isValid (RP.mode RP.secondary_east) = true
  /\ RP.minWireVersion RP.secondary_east = JS.JNum (JS.Fin 5).
Proof.
  split; [reflexivity|].
  destruct (constructed_instance_well_formed RP.no_coercion
              (JS.JStr "secondary") RP.east RP.stale90 RP.secondary_east
              eq_refl) as (_ & V & _ & _ & _).
  split; [exact V|reflexivity].
Defined.

Lemma staleness_number_witness :
  RP.isValid (JS.JStr "nearest") = true
  /\ 0 < 1
  /\ JS.JStr "nearest" <> JS.JStr "primary"
  /\ RP.ReadPreference RP.no_coercion (JS.JStr "nearest") JS.JUndefined
       (JS.JObj [("maxStalenessSeconds", JS.JNum (JS.Fin 1))])
     = RP.Returns (RP.mkInstance (JS.JStr "nearest") JS.JUndefined JS.JUndefined
                                 (JS.JNum (JS.Fin 1)) (JS.JNum (JS.Fin 5))).
Proof.
  split; [reflexivity|]. split; [lia|]. split; [discriminate|].
  apply (proj2 (proj2 (staleness_number RP.no_coercion (JS.JStr "nearest") 1
                         eq_refl))); [lia|discriminate].
Defined.

Lemma slaveOk_false_iff_witness :
  RP.ReadPreference RP.no_coercion (JS.JStr "primary") JS.JUndefined JS.JUndefined
  = RP.Returns (RP.only "primary")
  /\ RP.slaveOk (RP.only "primary") = false.
Proof.
  split; [reflexivity|].
  apply (slaveOk_false_iff RP.no_coercion (JS.JStr "primary") JS.JUndefined
           JS.JUndefined (RP.only "primary") eq_refl).
  left. reflexivity.
Defined.

Lemma proto_isValid_constructed_witness :
  RP.ReadPreference RP.no_coercion (JS.JStr "secondary") RP.east RP.stale90
  = RP.Returns RP.secondary_east
  /\ RP.proto_isValid RP.secondary_east JS.JUndefined = true
  /\ RP.proto_isValid RP.secondary_east (JS.JStr "master") = false.
Proof.
  split; [reflexivity|].
  destruct (proto_isValid_constructed RP.no_coercion
              (JS.JStr "secondary") RP.east RP.stale90 RP.secondary_east
              eq_refl) as [H1 _].
  split; [apply H1; reflexivity|reflexivity].
Defined.

Lemma equals_equivalence_witness :
  RP.ReadPreference RP.no_coercion (JS.JStr "secondary") RP.east RP.stale90
  = RP.Returns RP.secondary_east
  /\ RP.ReadPreference RP.no_coercion (JS.JStr "secondary") JS.JUndefined
                       JS.JUndefined
     = RP.Returns (RP.only "secondary")
  /\ RP.equals RP.secondary_east (RP.only "secondary")
     = RP.equals (RP.only "secondary") RP.secondary_east.
Proof.
  split; [reflexivity|]. split; [reflexivity|].
  exact (proj1 (proj2 (equals_equivalence RP.no_coercion
           (JS.JStr "secondary") RP.east RP.stale90
           (JS.JStr "secondary") JS.JUndefined JS.JUndefined
           (JS.JStr "secondary") JS.JUndefined JS.JUndefined
           RP.secondary_east (RP.only "secondary") (RP.only "secondary")
           eq_refl eq_refl eq_refl))).
Defined.

Lemma toJSON_fromOptions_witness :
  RP.ReadPreference RP.no_coercion (JS.JStr "secondary") RP.east RP.stale90
  = RP.Returns RP.secondary_east
  /\ RP.mode RP.secondary_east <> JS.JNull
  /\ RP.toJSON RP.secondary_east
     = JS.JObj [("mode", JS.JStr "secondary"); ("tags", RP.east);
                ("maxStalenessSeconds", JS.JNum (JS.Fin 90));
                ("hedge", RP.hedged)]
  /\ RP.fromOptions RP.no_coercion (RP.Value (RP.toJSON RP.secondary_east))
                    JS.JUndefined RP.hedged
     = RP.Constructs (RP.Returns RP.secondary_east).
Proof.
  split; [reflexivity|]. split; [discriminate|]. split; [reflexivity|].
  apply (proj2 (toJSON_fromOptions RP.no_coercion
                  (JS.JStr "secondary") RP.east RP.stale90 RP.secondary_east
                  JS.JUndefined eq_refl ltac:(discriminate)));
    left; reflexivity.
Defined.

Lemma fromOptions_behaviour_witness :
  let doc := [("mode", JS.JStr "nearest");
              ("hedge", JS.JObj [("enabled", JS.JBool false)])] in
  let rp := RP.mkInstance (JS.JStr "nearest") JS.JUndefined RP.hedged
                          JS.JUndefined JS.JUndefined in
  RP.fromOptions RP.no_coercion (RP.Value (JS.JObj doc)) RP.east RP.hedged
  = RP.Constructs (RP.Returns rp)
  /\ RP.hedge rp = RP.hedged
  /\ RP.tags rp = JS.JUndefined.
Proof.
  intros doc rp. split; [reflexivity|].
  destruct (fromOptions_behaviour RP.no_coercion RP.east RP.hedged)
    as (_ & _ & _ & H4 & _).
  destruct (H4 doc rp eq_refl) as (_ & _ & Ht & Hh).
  split; [exact Hh|exact Ht].
Defined.

(* ================================================================== *)
(** * Monitor: closing, and what a closed monitor does *)
(* ================================================================== *)

Section MonitorClosing.
Import Mon.

Lemma callback_closed (err : option Error) (isMaster : option IsMaster)
    (w : World) :
  open (s_state (monitor w)) = false ->
  monitorServer_callback err isMaster w = w.
Proof.
  intro H. destruct (callback_is_reschedule err isMaster w) as [ms ->].
  now apply rescheduleMonitoring_closed.
Qed.

Lemma requests_app (l1 l2 : list Effect) :
  requests (l1 ++ l2) = requests l1 ++ requests l2.
Proof. apply filter_app. Qed.

Lemma failureHandler_closed (start : Z) (err : Error) (w : World) :
  open (s_state (monitor w)) = false ->
  s_state (monitor (failureHandler start err w)) = s_state (monitor w)
  /\ timers (failureHandler start err w) = timers w
  /\ inflight (failureHandler start err w) = inflight w
  /\ requests (log (failureHandler start err w)) = requests (log w).
Proof.
  intro H. unfold failureHandler. cbv zeta.
  match goal with
  | |- context [monitorServer_callback ?e ?i ?x] =>
      rewrite (callback_closed e i x)
        by (destruct (kConnection (monitor w)), (is_network err); exact H)
  end.
  destruct (kConnection (monitor w)), (is_network err); simpl;
    repeat rewrite requests_app; simpl; repeat rewrite app_nil_r;
    repeat split.
Qed.

Lemma remove_nth_length {A} (i : nat) (l : list A) (x : A) :
  nth_error l i = Some x ->
  S (List.length (remove_nth i l)) = List.length l.
Proof.
  revert i. induction l as [|y l IH]; intros [|i] H; simpl in *;
    try discriminate; [reflexivity|].
  now rewrite (IH i H).
Qed.

Lemma quiet_step (a : Action) (w : World) :
  not_connect a = true ->
  s_state (monitor w) = STATE_CLOSED -> timers w = [] ->
  s_state (monitor (step a w)) = STATE_CLOSED
  /\ timers (step a w) = []
  /\ (List.length (inflight (step a w)) <= List.length (inflight w))%nat
  /\ requests (log (step a w)) = requests (log w).
Proof.
  intros Ha Hs Ht.
  assert (Hc : open (s_state (monitor w)) = false) by now rewrite Hs.
  destruct a; try discriminate; simpl.
  - rewrite requestCheck_not_idle by congruence. auto.
  - rewrite reset_closed by assumption. auto.
  - rewrite close_closed by assumption. auto.
  - rewrite Ht. simpl. auto.
  - destruct (nth_error (inflight w) i) as [[start|start aw]|] eqn:En; auto.
    pose proof (remove_nth_length _ _ _ En) as Hl.
    destruct r as [err|[conn reply]]; simpl.
    + match goal with
      | |- context [failureHandler start err ?x] =>
          destruct (failureHandler_closed start err x) as (-> & -> & -> & ->);
            [destruct (is_network err); exact Hc|]
      end.
      destruct (is_network err); simpl;
        repeat rewrite requests_app; simpl; repeat rewrite app_nil_r;
        repeat split; auto; lia.
    + rewrite callback_closed by exact Hc. simpl.
      rewrite requests_app; simpl; rewrite app_nil_r.
      repeat split; auto; lia.
  - destruct (nth_error (inflight w) i) as [[start|start aw]|] eqn:En; auto.
    pose proof (remove_nth_length _ _ _ En) as Hl.
    destruct r as [err|reply]; simpl.
    + match goal with
      | |- context [failureHandler start err ?x] =>
          destruct (failureHandler_closed start err x) as (-> & -> & -> & ->);
            [exact Hc|]
      end.
      simpl. repeat split; auto; lia.
    + destruct aw; simpl.
      * repeat rewrite requests_app; simpl; repeat rewrite app_nil_r.
        repeat split; auto. lia.
      * rewrite callback_closed by exact Hc. simpl.
        rewrite requests_app; simpl; rewrite app_nil_r.
        repeat split; auto; lia.
  - destruct (ticks w); simpl; auto.
    rewrite requests_app; simpl; rewrite app_nil_r. auto.
  - auto.
  - auto.
Qed.

Lemma quiet_run (acts : list Action) (w : World) :
  forallb not_connect acts = true ->
  s_state (monitor w) = STATE_CLOSED -> timers w = [] ->
  s_state (monitor (run acts w)) = STATE_CLOSED
  /\ timers (run acts w) = []
  /\ (List.length (inflight (run acts w)) <= List.length (inflight w))%nat
  /\ requests (log (run acts w)) = requests (log w).
Proof.
  revert w. induction acts as [|a acts IH]; intros w Hn Hs Ht; simpl.
  - auto.
  - simpl in Hn. apply andb_true_iff in Hn. destruct Hn as [Ha Hn].
    destruct (quiet_step a w Ha Hs Ht) as (Hs' & Ht' & Hl' & Hr').
    destruct (IH (step a w) Hn Hs' Ht') as (H1 & H2 & H3 & H4).
    repeat split; auto; [lia|congruence].
Qed.

(** X9.  On a monitor in state Idle or Monitoring, [close()] signals the
    cancellation token, clears the pending timer, destroys the private
    connection with [force: true] when there is one, emits [close] and
    leaves the state Closed; these are its only effects, in this order,
    and no timer is left armed.  In state Closed or Closing it does
    nothing.  The monitor is any one that keeps the timer discipline
    [timer_ok]. *)
Theorem close_behaviour (w : World) (Hok : timer_ok w = true) :
  (s_state (monitor w) = STATE_CLOSED \/ s_state (monitor w) = STATE_CLOSING ->
   close w = w)
  /\ (s_state (monitor w) = STATE_IDLE \/ s_state (monitor w) = STATE_MONITORING ->
      log (close w)
      = log w ++ [Cancel] ++ cleared (kMonitorId (monitor w))
        ++ match kConnection (monitor w) with
           | Some c => [Destroy c true]
           | None => []
           end
        ++ [Emit close_event]
      /\ s_state (monitor (close w)) = STATE_CLOSED
      /\ timers (close w) = []
      /\ inflight (close w) = inflight w).
Proof.
  split.
  - intros [H|H]; apply close_closed; now rewrite H.
  - intro H. rewrite close_open by (destruct H as [-> | ->]; reflexivity).
    simpl. rewrite (timer_ok_without w Hok). repeat split.
Qed.

(** X10.  Once [close()] has run on an Idle or Monitoring monitor, and
    until [connect()] is called, whatever else happens (calls of
    [reset()], [requestCheck()] and [close()], timers, ticks, time
    passing, new server descriptions, and the callbacks of the
    interrupted rounds arriving with any result): the monitor stays
    Closed, no timer is armed, and the monitor starts nothing, that is
    its effects gain no [setTimeout], no [connect] and no command; the
    number of outstanding callbacks never grows.  The callbacks that
    arrive still emit their heartbeat events: the reply of an
    interrupted streaming round emits [serverHeartbeatSucceeded] and
    then [serverHeartbeatStarted], and its callback stays registered,
    although no command is sent. *)
Theorem closed_stays_quiet (w : World) (acts : list Action)
    (Hok : timer_ok w = true)
    (Hopen : open (s_state (monitor w)) = true)
    (Hacts : forallb not_connect acts = true) :
  s_state (monitor (run acts (close w))) = STATE_CLOSED
  /\ timers (run acts (close w)) = []
  /\ (List.length (inflight (run acts (close w)))
      <= List.length (inflight w))%nat
  /\ requests (log (run acts (close w))) = requests (log w)
  /\ (forall i start reply,
        nth_error (inflight w) i = Some (PCommand start true) ->
        let w' := step (AcommandDone i (inr reply)) (close w) in
        log w'
        = log (close w)
          ++ [Emit (serverHeartbeatSucceeded (now w - start) reply
                                             (address (monitor w)));
              Emit (serverHeartbeatStarted (address (monitor w)))]
        /\ inflight w' = PCommand (now w) true :: remove_nth i (inflight w)).
Proof.
  assert (Hs : s_state (monitor (close w)) = STATE_CLOSED)
    by now rewrite close_open.
  assert (Ht : timers (close w) = [])
    by (rewrite close_open by assumption; simpl;
        apply (timer_ok_without w Hok)).
  assert (Hi : inflight (close w) = inflight w) by now rewrite close_open.
  assert (Hr : requests (log (close w)) = requests (log w)).
  { rewrite close_open by assumption. simpl.
    repeat rewrite requests_app.
    destruct (kMonitorId (monitor w)), (kConnection (monitor w)); simpl;
      now rewrite app_nil_r. }
  destruct (quiet_run acts (close w) Hacts Hs Ht) as (H1 & H2 & H3 & H4).
  rewrite Hi in H3. rewrite Hr in H4.
  split; [exact H1|]. split; [exact H2|]. split; [exact H3|].
  split; [exact H4|].
  intros i start reply Hn. cbv zeta. cbn [step]. rewrite Hi, Hn.
  rewrite close_open by assumption. simpl.
  repeat rewrite <- app_assoc. split; reflexivity.
Qed.

(** X11.  [connect()] and [close()] are idempotent: a second call in a
    row changes nothing. *)
Theorem connect_close_idempotent (w : World) :
  connect (connect w) = connect w /\ close (close w) = close w.
Proof.
  split.
  - assert (H : s_state (monitor (connect w)) <> STATE_CLOSED).
    { unfold connect. destruct (s_state (monitor w)) eqn:E;
        try (rewrite E; discriminate).
      rewrite monitorServer_eq by (now rewrite E). discriminate. }
    generalize (connect w) H. intros w' H'. unfold connect.
    destruct (s_state (monitor w')); congruence.
  - destruct (open (s_state (monitor w))) eqn:E.
    + apply close_closed. now rewrite close_open.
    + rewrite (close_closed w E). now apply close_closed.
Qed.

(** X12.  [reset()] and [close()] destroy the private connection but
    keep the reference to it: after either of them on an Idle or
    Monitoring monitor that has connection [c], [kConnection] still holds
    [c], so the next round the monitor starts is a command on [c] and
    not a fresh [connect].  A failed round, in contrast, forgets the
    connection, and the next round connects. *)
Theorem reset_keeps_connection (w : World) (c : Connection)
    (Hopen : open (s_state (monitor w)) = true)
    (Hc : kConnection (monitor w) = Some c) :
  (In (Destroy c true) (log (reset w))
   /\ kConnection (monitor (reset w)) = Some c
   /\ exists cmd opts, request_of (reset w) = RunCommand c cmd opts)
  /\ (In (Destroy c true) (log (close w))
      /\ kConnection (monitor (close w)) = Some c
      /\ exists cmd opts, request_of (close w) = RunCommand c cmd opts)
  /\ (forall start err,
        kConnection (monitor (failureHandler start err w)) = None
        /\ request_of (failureHandler start err w) = Connect).
Proof.
  split; [|split].
  - rewrite reset_open by assumption. unfold request_of. simpl. rewrite Hc.
    split; [|split; [reflexivity|eauto]].
    apply in_or_app. right. simpl. right.
    apply in_or_app. right. simpl. auto.
  - rewrite close_open by assumption. unfold request_of. simpl. rewrite Hc.
    split; [|split; [reflexivity|eauto]].
    apply in_or_app. right. simpl. right.
    apply in_or_app. right. simpl. auto.
  - intros start err.
    destruct (failureHandler_effects start err w) as (_ & _ & Hk).
    cbv zeta in Hk. split; [exact Hk|].
    unfold request_of. now rewrite Hk.
Qed.

End MonitorClosing.

(* ================================================================== *)
(** * Monitor: the events of a run *)
(* ================================================================== *)

Section MonitorEvents.
Import Mon.

Lemma starts_app (l1 l2 : list Event) :
  starts (l1 ++ l2) = (starts l1 + starts l2)%nat.
Proof. unfold starts. now rewrite filter_app, length_app. Qed.

Lemma outcomes_app (l1 l2 : list Event) :
  outcomes (l1 ++ l2) = (outcomes l1 + outcomes l2)%nat.
Proof. unfold outcomes. now rewrite filter_app, length_app. Qed.

Lemma callback_view (err : option Error) (isMaster : option IsMaster)
    (w : World) :
  open (s_state (monitor w)) = true ->
  let w' := monitorServer_callback err isMaster w in
  s_state (monitor w') = STATE_IDLE
  /\ inflight w' = inflight w
  /\ ticks w' = ticks w
  /\ events (log w') = events (log w).
Proof.
  intros H w'. subst w'.
  destruct (callback_quiet err isMaster w) as (He & _ & _).
  destruct (callback_state err isMaster w H) as (Hs & Hi).
  repeat split; auto.
  destruct (callback_is_reschedule err isMaster w) as [ms ->].
  now rewrite rescheduleMonitoring_open.
Qed.

Lemma failureHandler_view (start : Z) (err : Error) (w : World) :
  open (s_state (monitor w)) = true ->
  let w' := failureHandler start err w in
  s_state (monitor w') = STATE_IDLE
  /\ inflight w' = inflight w
  /\ ticks w' = ticks w
  /\ events (log w')
     = events (log w)
       ++ [serverHeartbeatFailed (now w - start) err (address (monitor w));
           resetServer err]
       ++ (if is_network err then [resetConnectionPool] else []).
Proof.
  intros H w'. subst w'.
  destruct (failureHandler_effects start err w) as (He & _ & _).
  destruct (failureHandler_state start err w H) as (Hs & Hi).
  repeat split; auto.
  unfold failureHandler. cbv zeta.
  match goal with
  | |- context [monitorServer_callback ?e ?i ?x] =>
      assert (Hx : open (s_state (monitor x)) = true /\ ticks x = ticks w)
        by (destruct (kConnection (monitor w)), (is_network err);
            split; solve [exact H | reflexivity]);
      destruct (callback_view e i x (proj1 Hx)) as (_ & _ & -> & _)
  end.
  apply Hx.
Qed.

Lemma requestCheck_view (w : World) :
  s_state (monitor w) = STATE_IDLE ->
  (s_state (monitor (requestCheck w)) = STATE_IDLE
   /\ inflight (requestCheck w) = inflight w
   /\ ticks (requestCheck w) = ticks w
   /\ events (log (requestCheck w)) = events (log w))
  \/ (s_state (monitor (requestCheck w)) = STATE_MONITORING
      /\ inflight (requestCheck w) = inflight w ++ [round_of w]
      /\ ticks (requestCheck w) = ticks w ++ [monitoring]
      /\ events (log (requestCheck w))
         = events (log w) ++ [serverHeartbeatStarted (address (monitor w))]).
Proof.
  intro E. rewrite requestCheck_idle by assumption.
  destruct (_ && _).
  - left.
    destruct (rescheduleMonitoring_quiet
                (Some (minHeartbeatFrequencyMS (options (monitor w))))
                (clearTimeout (kMonitorId (monitor w)) w)) as (He & _ & _).
    rewrite He.
    rewrite rescheduleMonitoring_open
      by (rewrite clearTimeout_eq; simpl; now rewrite E).
    rewrite clearTimeout_eq. simpl.
    repeat split. now rewrite events_app, events_cleared, app_nil_r.
  - right.
    assert (L : legal (s_state (monitor (clearTimeout (kMonitorId (monitor w)) w)))
                      STATE_MONITORING = true)
      by (rewrite clearTimeout_eq; simpl; now rewrite E).
    rewrite (monitorServer_events _ L).
    rewrite monitorServer_eq by assumption.
    rewrite clearTimeout_eq. simpl.
    repeat split. now rewrite events_app, events_cleared, app_nil_r.
Qed.

(** Count the events on both sides and compare. *)
Ltac count Hb :=
  repeat rewrite events_app; simpl;
  repeat rewrite starts_app; repeat rewrite outcomes_app;
  unfold starts, outcomes in *; simpl;
  repeat split; solve [lia | assumption | reflexivity].

Lemma bracketed_requestCheck (w : World) :
  bracketed w -> bracketed (requestCheck w).
Proof.
  intros (Hb & Hr & Ht).
  destruct (s_state (monitor w)) eqn:E;
    try (rewrite requestCheck_not_idle by congruence; repeat split; assumption).
  assert (Hi : inflight w = []).
  { unfold round_ok in Hr. rewrite E in Hr. now destruct (inflight w). }
  unfold open_rounds in Hb. rewrite E in Hb.
  destruct (requestCheck_view w E) as [(Hs & Hin & Htk & He)|(Hs & Hin & Htk & He)];
    unfold bracketed, open_rounds, round_ok; rewrite Hs, Hin, Htk, He, Hi.
  - count Hb.
  - rewrite forallb_app, Ht. count Hb.
Qed.

Lemma bracketed_step (a : Action) (w : World) :
  calm a = true -> bracketed w -> bracketed (step a w).
Proof.
  intros Hc HB. pose proof HB as (Hb & Hr & Ht).
  destruct a; try discriminate; simpl.
  - unfold connect. destruct (s_state (monitor w)) eqn:E; try exact HB.
    assert (L : legal (s_state (monitor w)) STATE_MONITORING = true)
      by now rewrite E.
    unfold bracketed, open_rounds, round_ok.
    rewrite (monitorServer_events w L).
    rewrite monitorServer_eq by assumption. simpl.
    unfold open_rounds in Hb. rewrite E in Hb.
    unfold round_ok in Hr. rewrite E in Hr.
    destruct (inflight w); [|discriminate].
    rewrite forallb_app, Ht. count Hb.
  - now apply bracketed_requestCheck.
  - destruct (find (id_is id) (timers w)) as [t|]; [|exact HB].
    destruct (due w t); [|exact HB].
    destruct (t_cb t); simpl; apply bracketed_requestCheck; exact HB.
  - destruct (nth_error (inflight w) i) as [[start|start aw]|] eqn:En;
      try exact HB.
    destruct (round_ok_monitoring w Hr _ _ En) as (Hs & Hi & ->).
    unfold open_rounds in Hb. rewrite Hs in Hb.
    destruct r as [err|[conn reply]]; simpl.
    + destruct (is_network err) eqn:N; simpl;
        match goal with
        | |- bracketed (failureHandler start err ?x) =>
            destruct (failureHandler_view start err x) as (Hs' & Hin & Htk & He);
              [simpl; now rewrite Hs|]
        end;
        unfold bracketed, open_rounds, round_ok; rewrite Hs', Hin, Htk, He;
        rewrite N; simpl; rewrite Hi; count Hb.
    + match goal with
      | |- bracketed (monitorServer_callback ?e ?im ?x) =>
          destruct (callback_view e im x) as (Hs' & Hin & Htk & He);
            [simpl; now rewrite Hs|]
      end.
      unfold bracketed, open_rounds, round_ok. rewrite Hs', Hin, Htk, He.
      simpl. rewrite Hi. count Hb.
  - destruct (nth_error (inflight w) i) as [[start|start aw]|] eqn:En;
      try exact HB.
    destruct (round_ok_monitoring w Hr _ _ En) as (Hs & Hi & ->).
    unfold open_rounds in Hb. rewrite Hs in Hb.
    destruct r as [err|reply]; simpl.
    + match goal with
      | |- bracketed (failureHandler start err ?x) =>
          destruct (failureHandler_view start err x) as (Hs' & Hin & Htk & He);
            [simpl; now rewrite Hs|]
      end.
      unfold bracketed, open_rounds, round_ok. rewrite Hs', Hin, Htk, He.
      simpl. rewrite Hi. destruct (is_network err); count Hb.
    + destruct aw; simpl.
      * unfold bracketed, open_rounds, round_ok. simpl. rewrite Hs, Hi.
        count Hb.
      * match goal with
        | |- bracketed (monitorServer_callback ?e ?im ?x) =>
            destruct (callback_view e im x) as (Hs' & Hin & Htk & He);
              [simpl; now rewrite Hs|]
        end.
        unfold bracketed, open_rounds, round_ok. rewrite Hs', Hin, Htk, He.
        simpl. rewrite Hi. count Hb.
  - destruct (ticks w) as [|e q] eqn:Eq; [exact HB|].
    simpl in Ht. apply andb_true_iff in Ht. destruct Ht as [He Hq].
    destruct e; try discriminate.
    unfold bracketed, open_rounds, round_ok. simpl.
    unfold open_rounds in Hb. unfold round_ok in Hr.
    count Hb.
  - exact HB.
  - exact HB.
Qed.

Lemma bracketed_run (acts : list Action) (w : World) :
  forallb calm acts = true -> bracketed w -> bracketed (run acts w).
Proof.
  revert w. induction acts as [|a acts IH]; intros w Hc H; simpl.
  - exact H.
  - simpl in Hc. apply andb_true_iff in Hc. destruct Hc as [Ha Hc].
    apply IH; [exact Hc|]. now apply bracketed_step.
Qed.

(** X13.  As long as neither [reset()] nor [close()] is called, every
    round is bracketed: after any sequence of calls, timers and
    callbacks, the number of [serverHeartbeatStarted] events emitted is
    the number of [serverHeartbeatSucceeded] and [serverHeartbeatFailed]
    events, plus one when the monitor is in state Monitoring, where the
    round in progress has been announced and has no outcome yet. *)
Theorem rounds_are_bracketed
    (addr : string) (description : ServerDescription) (o : Options) (t0 : Z)
    (acts : list Action) (Hcalm : forallb calm acts = true) :
  let w := run acts (new_Monitor addr description o t0) in
  starts (events (log w)) = (outcomes (events (log w)) + open_rounds w)%nat.
Proof.
  intro w.
  apply (bracketed_run acts (new_Monitor addr description o t0) Hcalm).
  repeat split.
Qed.

End MonitorEvents.

(* ================================================================== *)
(** * Monitor: request storms and streaming rounds *)
(* ================================================================== *)

Section MonitorSequences.
Import Mon.

Lemma storm_once (d : Z) (w : World) :
  timer_ok w = true ->
  s_state (monitor w) = STATE_IDLE ->
  kMonitorId (monitor w) <> None ->
  0 <= d ->
  remainingTime w - d > minHeartbeatFrequencyMS (options (monitor w)) ->
  requestCheck (step (Aadvance d) w)
  = mkWorld
      (mkMonitor STATE_IDLE (kConnection (monitor w)) (Some (next_timer w))
                 (Some (now w + d)) (address (monitor w)) (options (monitor w)))
      (server w) (now w + d)
      [mkTimer (next_timer w) ClearIdThenRequestCheck
               (Some (minHeartbeatFrequencyMS (options (monitor w))))
               (now w + d)]
      (S (next_timer w)) (inflight w) (ticks w)
      (log w ++ cleared (kMonitorId (monitor w))
       ++ cleared (kMonitorId (monitor w))
       ++ [SetTimeout (next_timer w) ClearIdThenRequestCheck
                      (Some (minHeartbeatFrequencyMS (options (monitor w))))]).
Proof.
  intros Hok Hs Hid Hd Hrem.
  pose proof (timer_ok_without w Hok) as Hw.
  set (w1 := step (Aadvance d) w).
  assert (E1 : s_state (monitor w1) = STATE_IDLE) by exact Hs.
  rewrite requestCheck_idle by exact E1.
  assert (Hr1 : remainingTime w1 = remainingTime w - d).
  { unfold remainingTime, calculateDurationInMs, w1. simpl.
    rewrite Z.max_r by lia.
    destruct (kLastCheckTime (monitor w)); lia. }
  rewrite Hr1.
  change (options (monitor w1)) with (options (monitor w)).
  change (kMonitorId (monitor w1)) with (kMonitorId (monitor w)).
  replace (remainingTime w - d >? minHeartbeatFrequencyMS (options (monitor w)))
    with true by (symmetry; apply Z.gtb_lt; lia).
  destruct (kMonitorId (monitor w)) as [id|] eqn:Ek; [|congruence].
  cbn [is_some andb].
  rewrite rescheduleMonitoring_open
    by (rewrite clearTimeout_eq; simpl; now rewrite Hs).
  rewrite clearTimeout_eq. unfold w1. simpl. rewrite Ek. simpl in Hw |- *.
  rewrite Z.max_r by lia. rewrite Hw. simpl.
  now repeat rewrite <- app_assoc.
Qed.

Lemma run_storm_S (d : Z) (n : nat) (w : World) :
  run (storm d (S n)) w = run (storm d n) (requestCheck (step (Aadvance d) w)).
Proof. reflexivity. Qed.

(** X14.  Requests that come [d] ms apart postpone the check instead of
    running it: on an Idle monitor holding a timer handle, when the
    remaining time at the first request and the full heartbeat interval
    both exceed [minHeartbeatFrequencyMS] by more than [d], any number of
    [requestCheck()] calls [d] ms apart start no round and emit no event;
    each call replaces the timer by one firing [minHeartbeatFrequencyMS]
    after that call and stamps the check time anew, so exactly one timer
    is armed in the end, counted from the last call. *)
Theorem requestCheck_storm (d : Z) (n : nat) (w : World)
    (Hok : timer_ok w = true)
    (Hidle : s_state (monitor w) = STATE_IDLE)
    (Hid : kMonitorId (monitor w) <> None)
    (Hd : 0 <= d)
    (Hfirst : remainingTime w - d > minHeartbeatFrequencyMS (options (monitor w)))
    (Hnext : heartbeatFrequencyMS (options (monitor w)) - d
             > minHeartbeatFrequencyMS (options (monitor w))) :
  let w' := run (storm d (S n)) w in
  let last := now w + Z.of_nat (S n) * d in
  s_state (monitor w') = STATE_IDLE
  /\ inflight w' = inflight w
  /\ events (log w') = events (log w)
  /\ timers w'
     = [mkTimer (next_timer w + n) ClearIdThenRequestCheck
                (Some (minHeartbeatFrequencyMS (options (monitor w)))) last]
  /\ kLastCheckTime (monitor w') = Some last.
Proof.
  revert w Hok Hidle Hid Hfirst Hnext.
  induction n as [|n IH]; intros w Hok Hidle Hid Hfirst Hnext w' last;
    subst w' last; rewrite run_storm_S;
    pose proof (storm_once d w Hok Hidle Hid Hd Hfirst) as E.
  - change (run (storm d 0) (requestCheck (step (Aadvance d) w)))
      with (requestCheck (step (Aadvance d) w)).
    rewrite E. cbn [monitor s_state inflight log timers kLastCheckTime].
    replace (now w + Z.of_nat 1 * d) with (now w + d) by lia.
    rewrite Nat.add_0_r.
    repeat split.
    repeat rewrite events_app. rewrite events_cleared. simpl.
    now rewrite app_nil_r.
  - set (w1 := requestCheck (step (Aadvance d) w)) in *.
    assert (H1 : timer_ok w1 = true)
      by (rewrite E; unfold timer_ok; simpl; apply Nat.eqb_refl).
    assert (H2 : s_state (monitor w1) = STATE_IDLE) by now rewrite E.
    assert (H3 : kMonitorId (monitor w1) <> None) by (rewrite E; discriminate).
    assert (Ho : options (monitor w1) = options (monitor w)) by now rewrite E.
    assert (H4 : remainingTime w1 - d
                 > minHeartbeatFrequencyMS (options (monitor w1))).
    { rewrite Ho. unfold remainingTime, calculateDurationInMs.
      rewrite E. simpl. lia. }
    assert (H5 : heartbeatFrequencyMS (options (monitor w1)) - d
                 > minHeartbeatFrequencyMS (options (monitor w1)))
      by now rewrite Ho.
    destruct (IH w1 H1 H2 H3 H4 H5) as (I1 & I2 & I3 & I4 & I5).
    rewrite I1, I2, I3, I4, I5, Ho.
    rewrite E. simpl next_timer. simpl now. simpl inflight. simpl log.
    repeat split.
    + repeat rewrite events_app. rewrite events_cleared. simpl.
      now rewrite app_nil_r.
    + f_equal. f_equal; lia.
    + f_equal. lia.
Qed.

Lemma stream_once (d : Z) (r : IsMaster) (start : Z) (rest : list Pending)
    (w : World) :
  0 <= d ->
  inflight w = PCommand start true :: rest ->
  step (AcommandDone 0 (inr r)) (step (Aadvance d) w)
  = mkWorld (monitor w) (server w) (now w + d) (timers w) (next_timer w)
            (PCommand (now w + d) true :: rest) (ticks w)
            (log w
             ++ [Emit (serverHeartbeatSucceeded (now w + d - start) r
                                                (address (monitor w)));
                 Emit (serverHeartbeatStarted (address (monitor w)))]).
Proof.
  intros Hd Hi. world w. subst inf. simpl.
  rewrite Z.max_r by lia. unfold emit, do. simpl.
  now rewrite <- app_assoc.
Qed.

(** X15.  A streaming round stays open: while its replies arrive, [d] ms
    apart, the monitor schedules nothing and changes neither its state
    nor its connection; each reply emits [serverHeartbeatSucceeded] and
    at once [serverHeartbeatStarted], the duration reported being the
    time since the round started for the first reply and the time since
    the previous reply for the others; the same callback stays
    registered. *)
Theorem streaming_round_stays_open (d : Z) (replies : list IsMaster)
    (start : Z) (rest : list Pending) (w : World)
    (Hd : 0 <= d)
    (Hround : inflight w = PCommand start true :: rest) :
  let w' := run (stream d replies) w in
  monitor w' = monitor w
  /\ timers w' = timers w
  /\ events (log w')
     = events (log w)
       ++ streamed (address (monitor w)) (now w + d - start) d replies
  /\ exists start', inflight w' = PCommand start' true :: rest.
Proof.
  revert start w Hround.
  induction replies as [|r replies IH]; intros start w Hround w'; subst w'.
  - simpl. rewrite app_nil_r. eauto.
  - change (run (stream d (r :: replies)) w)
      with (run (stream d replies)
              (step (AcommandDone 0 (inr r)) (step (Aadvance d) w))).
    pose proof (stream_once d r start rest w Hd Hround) as E.
    set (w1 := step (AcommandDone 0 (inr r)) (step (Aadvance d) w)) in *.
    assert (Hr1 : inflight w1 = PCommand (now w + d) true :: rest)
      by now rewrite E.
    destruct (IH (now w + d) w1 Hr1) as (I1 & I2 & I3 & s' & I4).
    split; [rewrite I1; now rewrite E|].
    split; [rewrite I2; now rewrite E|].
    split; [|exists s'; exact I4].
    rewrite I3. rewrite E. cbn [monitor log now].
    rewrite events_app. simpl.
    replace (now w + d + d - (now w + d)) with d by lia.
    now rewrite <- app_assoc.
Qed.

End MonitorSequences.

(* ================================================================== *)
(** * Monitor: from an armed timer to the next round *)
(* ================================================================== *)

Section MonitorTimers.
Import Mon.

Lemma timer_fires (id : nat) (cb : TimerCallback) (ms : option Z) (at' : Z)
    (w : World) :
  timers w = [mkTimer id cb ms at'] ->
  due w (mkTimer id cb ms at') = true ->
  step (Atimer id) w
  = run_timer cb (mkWorld (monitor w) (server w) (now w) [] (next_timer w)
                          (inflight w) (ticks w) (log w)).
Proof.
  intros Ht Hd. simpl. rewrite Ht. simpl. unfold id_is at 1. simpl.
  rewrite Nat.eqb_refl. rewrite Hd. unfold with_timers. rewrite Ht. simpl.
  unfold id_is. simpl. now rewrite Nat.eqb_refl.
Qed.

(** X16.  The timer armed when a round is scheduled starts the next
    round whenever it fires: its callback clears the timer handle before
    calling [requestCheck()], so the rate limit does not apply, whatever
    time has passed.  After scheduling on an Idle or Monitoring monitor
    and a wait of [d] ms, at least the delay, the firing timer leaves the
    monitor Monitoring with no timer armed, one more round outstanding
    and [serverHeartbeatStarted] emitted. *)
Theorem scheduled_timer_starts_round (ms : option Z) (d : Z) (w : World)
    (Hok : timer_ok w = true)
    (Hopen : open (s_state (monitor w)) = true)
    (Hd : 0 <= d)
    (Hdue : forall m, ms = Some m -> m <= d) :
  let w' := step (Atimer (next_timer w))
                 (step (Aadvance d) (rescheduleMonitoring ms w)) in
  s_state (monitor w') = STATE_MONITORING
  /\ timers w' = []
  /\ inflight w'
     = inflight w
       ++ [match kConnection (monitor w) with
           | Some _ => PCommand (now w + d)
                                (is_some (sd_topologyVersion (server w)))
           | None => PConnect (now w + d)
           end]
  /\ events (log w')
     = events (log w) ++ [serverHeartbeatStarted (address (monitor w))].
Proof.
  intro w'. subst w'.
  rewrite rescheduleMonitoring_open by assumption.
  rewrite (timer_ok_without w Hok).
  erewrite timer_fires;
    [|simpl; reflexivity
     |unfold due; simpl; destruct ms as [m|]; [|reflexivity];
      apply Z.leb_le; specialize (Hdue m eq_refl); lia].
  simpl run_timer. rewrite Z.max_r by lia.
  rewrite requestCheck_idle by reflexivity.
  cbn [monitor kMonitorId is_some andb]. rewrite andb_false_r.
  match goal with
  | |- context [monitorServer ?x] =>
      rewrite (monitorServer_events x eq_refl);
      rewrite (monitorServer_eq x eq_refl)
  end.
  unfold round_of. simpl.
  repeat split.
  repeat rewrite events_app. rewrite events_cleared. simpl.
  now repeat rewrite app_nil_r.
Qed.

(** X17.  [reset()] backs off for a full heartbeat interval and then
    probes: on an Idle or Monitoring monitor whose last check was stamped
    in the past, with a non-negative [minHeartbeatFrequencyMS], the timer
    [reset()] arms, firing [d >= heartbeatFrequencyMS] later, starts a
    round at once; no timer is left armed. *)
Theorem reset_timer_probes (d t : Z) (w : World)
    (Hok : timer_ok w = true)
    (Hopen : open (s_state (monitor w)) = true)
    (Hlast : kLastCheckTime (monitor w) = Some t)
    (Ht : t <= now w)
    (Hmin : 0 <= minHeartbeatFrequencyMS (options (monitor w)))
    (Hd : 0 <= d)
    (Hhb : heartbeatFrequencyMS (options (monitor w)) <= d) :
  let w' := step (Atimer (next_timer w)) (step (Aadvance d) (reset w)) in
  s_state (monitor w') = STATE_MONITORING
  /\ timers w' = []
  /\ inflight w'
     = inflight w
       ++ [match kConnection (monitor w) with
           | Some _ => PCommand (now w + d)
                                (is_some (sd_topologyVersion (server w)))
           | None => PConnect (now w + d)
           end]
  /\ events (log w')
     = events (log w) ++ [serverHeartbeatStarted (address (monitor w))].
Proof.
  intro w'. subst w'.
  rewrite reset_open by assumption.
  rewrite (timer_ok_without w Hok).
  erewrite timer_fires;
    [|simpl; reflexivity
     |unfold due; simpl; apply Z.leb_le; lia].
  simpl run_timer. rewrite Z.max_r by lia.
  rewrite requestCheck_idle by reflexivity.
  match goal with
  | |- context [remainingTime ?x >? ?m] =>
      replace (remainingTime x >? m) with false
        by (symmetry; unfold remainingTime, calculateDurationInMs; simpl;
            rewrite Hlast; rewrite Z.gtb_ltb; apply Z.ltb_ge; lia)
  end.
  cbn [andb].
  match goal with
  | |- context [monitorServer ?x] =>
      rewrite (monitorServer_events x eq_refl);
      rewrite (monitorServer_eq x eq_refl)
  end.
  unfold round_of. rewrite clearTimeout_eq.
  world w. destruct kid, kc; simpl;
    repeat rewrite events_app; simpl; repeat rewrite app_nil_r;
    repeat split.
Qed.

End MonitorTimers.

Lemma close_behaviour_witness :
  Mon.timer_ok Mon.about_to_fire = true
  /\ Mon.s_state (Mon.monitor Mon.about_to_fire) = Mon.STATE_IDLE
  /\ Mon.log (Mon.close Mon.about_to_fire)
     = Mon.log Mon.about_to_fire
       ++ [Mon.Cancel; Mon.ClearTimeout 0; Mon.Destroy 7%nat true;
           Mon.Emit Mon.close_event]
  /\ Mon.s_state (Mon.monitor (Mon.close Mon.about_to_fire)) = Mon.STATE_CLOSED
  /\ Mon.timers (Mon.close Mon.about_to_fire) = [].
Proof.
  split; [reflexivity|]. split; [reflexivity|].
  destruct (proj2 (close_behaviour Mon.about_to_fire eq_refl) (or_introl eq_refl))
    as (H1 & H2 & H3 & _).
  split; [exact H1|]. split; [exact H2|exact H3].
Defined.

Lemma closed_stays_quiet_witness :
  let acts := [Mon.ArequestCheck;
               Mon.AcommandDone 0 (inl (Mon.MongoNetworkError "connection closed"));
               Mon.Areset; Mon.Aadvance 10000] in
  Mon.timer_ok Mon.second_round = true
  /\ Mon.open (Mon.s_state (Mon.monitor Mon.second_round)) = true
  /\ forallb Mon.not_connect acts = true
  /\ Mon.s_state (Mon.monitor (Mon.run acts (Mon.close Mon.second_round)))
     = Mon.STATE_CLOSED
  /\ Mon.timers (Mon.run acts (Mon.close Mon.second_round)) = []
  /\ Mon.requests (Mon.log (Mon.run acts (Mon.close Mon.second_round)))
     = Mon.requests (Mon.log Mon.second_round).
Proof.
  intro acts.
  split; [reflexivity|]. split; [reflexivity|]. split; [reflexivity|].
  destruct (closed_stays_quiet Mon.second_round acts eq_refl eq_refl eq_refl)
    as (H1 & H2 & _ & H4 & _).
  split; [exact H1|]. split; [exact H2|exact H4].
Defined.

Lemma reset_keeps_connection_witness :
  Mon.open (Mon.s_state (Mon.monitor Mon.about_to_fire)) = true
  /\ Mon.kConnection (Mon.monitor Mon.about_to_fire) = Some 7%nat
  /\ In (Mon.Destroy 7%nat true) (Mon.log (Mon.reset Mon.about_to_fire))
  /\ Mon.kConnection (Mon.monitor (Mon.reset Mon.about_to_fire)) = Some 7%nat.
Proof.
  split; [reflexivity|]. split; [reflexivity|].
  destruct (reset_keeps_connection Mon.about_to_fire 7%nat eq_refl eq_refl)
    as ((H1 & H2 & _) & _).
  split; [exact H1|exact H2].
Defined.

Lemma rounds_are_bracketed_witness :
  let acts := [Mon.Aconnect;
               Mon.AconnectDone 0 (inr (7%nat, Mon.mkIsMaster None));
               Mon.Adescription (Mon.mkDescription Mon.RSPrimary None);
               Mon.Aadvance 10000; Mon.Atimer 0] in
  forallb Mon.calm acts = true
  /\ Mon.starts (Mon.events (Mon.log Mon.second_round)) = 2%nat
  /\ Mon.starts (Mon.events (Mon.log Mon.second_round))
     = (Mon.outcomes (Mon.events (Mon.log Mon.second_round))
        + Mon.open_rounds Mon.second_round)%nat.
Proof.
  intro acts. split; [reflexivity|]. split; [reflexivity|].
  exact (rounds_are_bracketed "db:27017" (Mon.mkDescription Mon.Unknown None)
           (Mon.makeOptions None None None None) 0 acts eq_refl).
Defined.

Lemma requestCheck_storm_witness :
  Mon.timer_ok Mon.about_to_fire = true
  /\ Mon.s_state (Mon.monitor Mon.about_to_fire) = Mon.STATE_IDLE
  /\ Mon.remainingTime Mon.about_to_fire - 400 > 500
  /\ Mon.inflight (Mon.run (Mon.storm 400 3) Mon.about_to_fire) = []
  /\ Mon.timers (Mon.run (Mon.storm 400 3) Mon.about_to_fire)
     = [Mon.mkTimer 3 Mon.ClearIdThenRequestCheck (Some 500) 1201].
Proof.
  split; [reflexivity|]. split; [reflexivity|]. split; [reflexivity|].
  destruct (requestCheck_storm 400 2 Mon.about_to_fire eq_refl eq_refl
              ltac:(discriminate) ltac:(discriminate) eq_refl eq_refl)
    as (_ & H2 & _ & H4 & _).
  split; [exact H2|exact H4].
Defined.

Lemma streaming_round_stays_open_witness :
  let replies := [Mon.mkIsMaster (Some Mon.tv1); Mon.mkIsMaster (Some Mon.tv2)] in
  let w' := Mon.run (Mon.stream 3000 replies) Mon.streaming_round in
  Mon.inflight Mon.streaming_round = [Mon.PCommand 0 true]
  /\ Mon.monitor w' = Mon.monitor Mon.streaming_round
  /\ Mon.timers w' = []
  /\ Mon.events (Mon.log w')
     = Mon.events (Mon.log Mon.streaming_round)
       ++ [Mon.serverHeartbeatSucceeded 3000 (Mon.mkIsMaster (Some Mon.tv1))
                                        "db:27017";
           Mon.serverHeartbeatStarted "db:27017";
           Mon.serverHeartbeatSucceeded 3000 (Mon.mkIsMaster (Some Mon.tv2))
                                        "db:27017";
           Mon.serverHeartbeatStarted "db:27017"].
Proof.
  intros replies w'. split; [reflexivity|].
  destruct (streaming_round_stays_open 3000 replies 0 [] Mon.streaming_round
              ltac:(discriminate) eq_refl) as (H1 & H2 & H3 & _).
  split; [exact H1|]. split; [exact H2|exact H3].
Defined.

Lemma scheduled_timer_starts_round_witness :
  let w' := Mon.step (Mon.Atimer 1)
              (Mon.step (Mon.Aadvance 10000)
                 (Mon.rescheduleMonitoring (Some 10000) Mon.about_to_fire)) in
  Mon.timer_ok Mon.about_to_fire = true
  /\ Mon.open (Mon.s_state (Mon.monitor Mon.about_to_fire)) = true
  /\ Mon.s_state (Mon.monitor w') = Mon.STATE_MONITORING
  /\ Mon.timers w' = []
  /\ Mon.inflight w' = [Mon.PCommand 10001 false].
Proof.
  intro w'. split; [reflexivity|]. split; [reflexivity|].
  destruct (scheduled_timer_starts_round (Some 10000) 10000 Mon.about_to_fire
              eq_refl eq_refl ltac:(discriminate)
              ltac:(intros m H; inversion H; apply Z.le_refl))
    as (H1 & H2 & H3 & _).
  split; [exact H1|]. split; [exact H2|exact H3].
Defined.

Lemma reset_timer_probes_witness :
  let w' := Mon.step (Mon.Atimer 1)
              (Mon.step (Mon.Aadvance 10000) (Mon.reset Mon.about_to_fire)) in
  Mon.timer_ok Mon.about_to_fire = true
  /\ Mon.kLastCheckTime (Mon.monitor Mon.about_to_fire) = Some 0
  /\ Mon.now Mon.about_to_fire = 1
  /\ Mon.s_state (Mon.monitor w') = Mon.STATE_MONITORING
  /\ Mon.timers w' = []
  /\ Mon.inflight w' = [Mon.PCommand 10001 false].
Proof.
  intro w'. split; [reflexivity|]. split; [reflexivity|]. split; [reflexivity|].
  destruct (reset_timer_probes 10000 0 Mon.about_to_fire
              eq_refl eq_refl eq_refl ltac:(discriminate) ltac:(discriminate)
              ltac:(discriminate) ltac:(discriminate))
    as (H1 & H2 & H3 & _).
  split; [exact H1|]. split; [exact H2|exact H3].
Defined.
